(** * wifiphisher.common.phishingpage: phishing templates and their manager

    A shallow embedding of [src/wifiphisher/common/phishingpage.py] and the
    properties of its template entity ([PhishingTemplate]) and registry
    ([TemplateManager]).

    The module is Python 2 code over three libraries: [os]/[os.path],
    [shutil.copyfile] and [ConfigParser].  The code of the module is embedded
    statement by statement in a state-and-exception monad; the libraries are
    modelled by what they do on a POSIX file system without symbolic links:

    - path strings are handled by the functions of [posixpath] ([join],
      [dirname], [basename]), embedded from their Python 2.7 definitions;
    - the file system is a finite map from resolved locations (lists of
      directory entries) to nodes, and a path string is resolved component
      by component, as the kernel does;
    - a descriptor file is stored as what [ConfigParser] reads from it: a map
      from section names to maps from option names to values.  Values are
      taken raw (no [%(...)s] interpolation, no [DEFAULT] section) and
      option names are in the lower-case form the parser stores. *)

From stdpp Require Import base option list strings gmap.
From Stdlib Require Import Ascii String.

Local Open Scope string_scope.

(** ** Python strings *)

Module PyStr.

Definition slash : ascii := "/"%char.

(** [s.startswith(p)] *)
Definition startswith (s p : string) : bool := String.prefix p s.

(** [s.endswith(p)] *)
Definition endswith (s p : string) : bool :=
  let n := String.length s in
  let m := String.length p in
  if (m <=? n)%nat then String.eqb (String.substring (n - m) m s) p else false.

(** [s.lower()] on ASCII letters *)
Definition lower_ascii (c : ascii) : ascii :=
  let n := nat_of_ascii c in
  if ((65 <=? n) && (n <=? 90))%nat then ascii_of_nat (n + 32) else c.

Fixpoint lower (s : string) : string :=
  match s with
  | EmptyString => EmptyString
  | String c r => String (lower_ascii c) (lower r)
  end.

(** [s.rstrip('/')] *)
Fixpoint rstrip_slash (s : string) : string :=
  match s with
  | EmptyString => EmptyString
  | String c r =>
      match rstrip_slash r with
      | EmptyString => if Ascii.eqb c slash then EmptyString else String c EmptyString
      | r' => String c r'
      end
  end.

(** [s == '/' * len(s)] *)
Fixpoint all_slashes (s : string) : bool :=
  match s with
  | EmptyString => true
  | String c r => Ascii.eqb c slash && all_slashes r
  end.

(** [(p[:i], p[i:])] for [i = p.rfind('/') + 1] *)
Fixpoint rsplit_slash (p : string) : string * string :=
  match p with
  | EmptyString => (EmptyString, EmptyString)
  | String c r =>
      let '(h, t) := rsplit_slash r in
      match h with
      | EmptyString =>
          if Ascii.eqb c slash then (String c EmptyString, r)
          else (EmptyString, String c r)
      | _ => (String c h, t)
      end
  end.

(** [p.split('/')] *)
Fixpoint split_slash (p : string) : list string :=
  match p with
  | EmptyString => [EmptyString]
  | String c r =>
      if Ascii.eqb c slash then EmptyString :: split_slash r
      else match split_slash r with
           | [] => [String c EmptyString]
           | w :: ws => String c w :: ws
           end
  end.

End PyStr.

(** ** posixpath *)

Module posixpath.
Import PyStr.

(** One step of the loop of [posixpath.join(a, *p)]. *)
Definition join2 (path b : string) : string :=
  if startswith b "/" then b
  else if String.eqb path "" || endswith path "/" then path ++ b
  else path ++ "/" ++ b.

Definition join (a : string) (p : list string) : string := foldl join2 a p.

Definition basename (p : string) : string := snd (rsplit_slash p).

Definition dirname (p : string) : string :=
  let head := fst (rsplit_slash p) in
  if negb (String.eqb head "") && negb (all_slashes head)
  then rstrip_slash head else head.

End posixpath.

(** ** Exceptions, results and the state-and-exception monad *)

Inductive exn : Type :=
  | AttributeError | KeyError
  | NoSectionError | NoOptionError | DuplicateSectionError | ParsingError
  | IOError | OSError | ShutilError.

Global Instance exn_eq_dec : EqDecision exn.
Proof. solve_decision. Defined.

Inductive result (A : Type) : Type :=
  | Ok (a : A)
  | Raise (e : exn).
Arguments Ok {A} a.
Arguments Raise {A} e.

(** A computation over a state [S]: it always leaves a state behind, also
    when it raises, since what was changed before the [raise] stays changed. *)
Definition M (S A : Type) : Type := S → S * result A.

Global Instance M_ret {S} : MRet (M S) := λ A a s, (s, Ok a).

Global Instance M_bind {S} : MBind (M S) := λ A B f m s,
  match m s with
  | (s', Ok a) => f a s'
  | (s', Raise e) => (s', Raise e)
  end.

Definition raise {S A} (e : exn) : M S A := λ s, (s, Raise e).

Definition lift {S A} (r : result A) : M S A := λ s, (s, r).

Definition gets {S A} (f : S → A) : M S A := λ s, (s, Ok (f s)).

Definition modify {S} (f : S → S) : M S unit := λ s, (f s, Ok tt).

(** [try: m  except e: h] *)
Definition try_except {S A} (m : M S A) (e : exn) (h : M S A) : M S A := λ s,
  match m s with
  | (s', Raise e') => if decide (e' = e) then h s' else (s', Raise e')
  | r => r
  end.

(** [for x in l: body(x)] *)
Fixpoint for_ {S A} (l : list A) (body : A → M S unit) : M S unit :=
  match l with
  | [] => mret tt
  | x :: l' => body x ;; for_ l' body
  end.

(** [for x in l: acc = body(acc, x)], for a loop that updates a local variable *)
Fixpoint for_acc {S A B} (l : list A) (acc : B) (body : B → A → M S B) : M S B :=
  match l with
  | [] => mret acc
  | x :: l' => acc' ← body acc x; for_acc l' acc' body
  end.

(** ** Python values and dictionaries *)

(** The values the module stores in attributes and dictionaries: [False],
    [None] and strings. *)
Inductive pyval : Type :=
  | PyFalse
  | PyNone
  | PyStr (s : string).

Global Instance pyval_eq_dec : EqDecision pyval.
Proof. solve_decision. Defined.

(** [bool(v)] *)
Definition truthy (v : pyval) : bool :=
  match v with
  | PyFalse | PyNone => false
  | PyStr s => negb (String.eqb s "")
  end.

Abbreviation dict := (gmap string pyval).

(** [d[k]] *)
Definition getitem {S} (d : dict) (k : string) : M S pyval :=
  match d !! k with
  | Some v => mret v
  | None => raise KeyError
  end.

(** ** The file system *)

(** A parsed descriptor: section name to option name to value. *)
Abbreviation ini := (gmap string (gmap string string)).

(** What a regular file holds: a descriptor (given by what the parser reads
    from it; the empty file is [Ini ∅]) or bytes that are no descriptor. *)
Inductive data : Type :=
  | Ini (c : ini)
  | Blob (s : string).

Inductive node : Type :=
  | Dir
  | File (d : data).

(** How opening a file for writing and writing it can fail for reasons that
    are not in the directory tree (permissions, a full disk): the open is
    refused, or the file is opened, hence truncated, and the write breaks
    leaving [rest] behind. *)
Inductive wfail : Type :=
  | OpenDenied
  | WriteBroken (rest : data).

(** A resolved location: directory entries from the root. *)
Abbreviation loc := (list string).

Record world : Type := World {
  files : gmap loc node;       (* the directory tree below the root *)
  cwd : loc;                   (* the working directory *)
  locked : gset loc;           (* locations whose removal the system refuses *)
  wfault : gmap loc wfail;     (* locations whose writing fails, and how *)
  stdout : list string         (* the lines printed so far *)
}.

Definition set_files (f : gmap loc node → gmap loc node) (w : world) : world :=
  {| files := f (files w); cwd := cwd w; locked := locked w;
     wfault := wfault w; stdout := stdout w |}.

Definition print (line : string) : M world unit :=
  modify (λ w, {| files := files w; cwd := cwd w; locked := locked w;
                  wfault := wfault w; stdout := (stdout w ++ [line])%list |}).

Module os.
Import PyStr.

Definition node_at (w : world) (l : loc) : option node :=
  match l with
  | [] => Some Dir
  | _ => files w !! l
  end.

Definition is_dir_at (w : world) (l : loc) : bool :=
  match node_at w l with
  | Some Dir => true
  | _ => false
  end.

(** Path resolution: every component is looked up in a directory. *)
Fixpoint walk (w : world) (cur : loc) (cs : list string) : option loc :=
  match cs with
  | [] => Some cur
  | c :: cs' =>
      if is_dir_at w cur then
        if String.eqb c "" || String.eqb c "." then walk w cur cs'
        else if String.eqb c ".." then walk w (removelast cur) cs'
        else walk w (cur ++ [c]) cs'
      else None
  end.

Definition resolve (w : world) (p : string) : option loc :=
  if String.eqb p "" then None
  else walk w (if startswith p "/" then [] else cwd w) (split_slash p).

Definition stat (w : world) (p : string) : option node :=
  l ← resolve w p; node_at w l.

(** The name [k] has in the directory [l], when it is directly inside it. *)
Fixpoint child_of (l k : loc) : option string :=
  match l, k with
  | [], [n] => Some n
  | x :: l', y :: k' => if decide (x = y) then child_of l' k' else None
  | _, _ => None
  end.

Definition children (w : world) (l : loc) : list string :=
  omap (child_of l) (map_to_list (files w)).*1.

(** [os.listdir(p)] *)
Definition listdir (p : string) : M world (list string) := λ w,
  match resolve w p with
  | Some l =>
      match node_at w l with
      | Some Dir => (w, Ok (children w l))
      | _ => (w, Raise OSError)
      end
  | None => (w, Raise OSError)
  end.

(** [os.remove(p)] *)
Definition remove (p : string) : M world unit := λ w,
  match resolve w p with
  | Some l =>
      match node_at w l with
      | Some (File _) =>
          if decide (l ∈ locked w) then (w, Raise OSError)
          else (set_files (delete l) w, Ok tt)
      | _ => (w, Raise OSError)
      end
  | None => (w, Raise OSError)
  end.

(** The last component of [p] names a directory whatever is there. *)
Definition names_directory (p : string) : bool :=
  let c := posixpath.basename p in
  String.eqb c "" || String.eqb c "." || String.eqb c "..".

(** [with open(p, 'wb') as f: f.write(d)]: the file is created or
    truncated by the open, then written. *)
Definition write_file (p : string) (d : data) : M world unit := λ w,
  match resolve w p with
  | Some l =>
      if names_directory p then (w, Raise IOError)
      else match node_at w l with
           | Some Dir => (w, Raise IOError)
           | _ =>
               match wfault w !! l with
               | Some OpenDenied => (w, Raise IOError)
               | Some (WriteBroken rest) =>
                   (set_files <[l := File rest]> w, Raise IOError)
               | None => (set_files <[l := File d]> w, Ok tt)
               end
           end
  | None => (w, Raise IOError)
  end.

Module path.

(** [os.path.isfile(p)] *)
Definition isfile (w : world) (p : string) : bool :=
  match stat w p with
  | Some (File _) => true
  | _ => false
  end.

(** [os.path.isdir(p)] *)
Definition isdir (w : world) (p : string) : bool :=
  match stat w p with
  | Some Dir => true
  | _ => false
  end.

(** [os.path.samefile(a, b)], [False] when either is missing *)
Definition samefile (w : world) (a b : string) : bool :=
  match resolve w a, resolve w b with
  | Some la, Some lb =>
      bool_decide (is_Some (node_at w la)) && bool_decide (la = lb)
  | _, _ => false
  end.

End path.
End os.

(** [shutil.copyfile(src, dst)] *)
Definition copyfile (src dst : string) : M world unit :=
  same ← gets (λ w, os.path.samefile w src dst);
  if same : bool then raise ShutilError
  else
    source ← gets (λ w, os.stat w src);
    match source with
    | Some (File d) => os.write_file dst d
    | _ => raise IOError
    end.

(** ** ConfigParser *)

Module ConfigParser.

(** [config.read(path)] on a new parser: a file that cannot be opened is
    skipped, one that is no descriptor raises. *)
Definition read (p : string) : M world ini :=
  source ← gets (λ w, os.stat w p);
  match source with
  | Some (File (Ini c)) => mret c
  | Some (File (Blob _)) => raise ParsingError
  | _ => mret ∅
  end.

Definition sections (c : ini) : list string := (map_to_list c).*1.

Definition options (c : ini) (s : string) : result (list string) :=
  match c !! s with
  | Some opts => Ok (map_to_list opts).*1
  | None => Raise NoSectionError
  end.

Definition get (c : ini) (s o : string) : result string :=
  match c !! s with
  | Some opts =>
      match opts !! o with
      | Some v => Ok v
      | None => Raise NoOptionError
      end
  | None => Raise NoSectionError
  end.

Definition add_section (c : ini) (s : string) : result ini :=
  match c !! s with
  | Some _ => Raise DuplicateSectionError
  | None => Ok (<[s := ∅]> c)
  end.

Definition set (c : ini) (s o v : string) : result ini :=
  match c !! s with
  | Some opts => Ok (<[s := <[o := v]> opts]> c)
  | None => Raise NoSectionError
  end.

(** [with open(p, 'wb') as f: config.write(f)] *)
Definition write (c : ini) (p : string) : M world unit :=
  os.write_file p (Ini c).

End ConfigParser.

(** ** wifiphisher.common.constants *)

(** The constants the module takes from [wifiphisher.common.constants]:
    the directory of the templates, the name of the directory of a template's
    pages, and the two colour codes used in diagnostics. *)
Record constants : Type := Constants {
  PHISHING_PAGES_DIR : string;
  SCENARIO_HTML_DIR : string;
  R : string;
  W : string
}.

(** ** Objects *)

(** A method runs on the world and on [self]. *)
Definition io {X A} (m : M world A) : M (world * X) A := λ '(w, x),
  let '(w', r) := m w in ((w', x), r).

Definition self {X} : M (world * X) X := gets snd.

Definition set_self {X} (f : X → X) : M (world * X) unit :=
  modify (λ '(w, x), (w, f x)).

(** [x0.__init__(...)] on a new object [x0]; the object exists only if
    [__init__] returns. *)
Definition new {X} (x0 : X) (init : M (world * X) unit) : M world X := λ w,
  match init (w, x0) with
  | ((w', x), Ok _) => (w', Ok x)
  | ((w', _), Raise e) => (w', Raise e)
  end.

(** ** phishingpage.py *)

Record PhishingTemplate : Type := {
  _name : string;
  display_name : pyval;
  _description : pyval;
  _payload : pyval;
  _config_path : string;
  path : string;
  static_path : string;
  context : dict;
  _context : option dict;        (* [None]: the attribute is not set *)
  _extra_files : list string
}.

Definition set__payload (v : pyval) (t : PhishingTemplate) : PhishingTemplate :=
  {| _name := _name t; display_name := display_name t;
     _description := _description t; _payload := v;
     _config_path := _config_path t; path := path t;
     static_path := static_path t; context := context t;
     _context := _context t; _extra_files := _extra_files t |}.

Definition set__context (c : dict) (t : PhishingTemplate) : PhishingTemplate :=
  {| _name := _name t; display_name := display_name t;
     _description := _description t; _payload := _payload t;
     _config_path := _config_path t; path := path t;
     static_path := static_path t; context := context t;
     _context := Some c; _extra_files := _extra_files t |}.

Definition set__extra_files (l : list string) (t : PhishingTemplate) : PhishingTemplate :=
  {| _name := _name t; display_name := display_name t;
     _description := _description t; _payload := _payload t;
     _config_path := _config_path t; path := path t;
     static_path := static_path t; context := context t;
     _context := _context t; _extra_files := l |}.

Record TemplateManager : Type := {
  _template_directory : string;
  templates : gmap string PhishingTemplate
}.

Definition set_templates
    (f : gmap string PhishingTemplate → gmap string PhishingTemplate)
    (m : TemplateManager) : TemplateManager :=
  {| _template_directory := _template_directory m; templates := f (templates m) |}.

(** [self.templates[name].method()] *)
Definition call {A} (name : string) (method : M (world * PhishingTemplate) A)
    : M (world * TemplateManager) A := λ '(w, m),
  match templates m !! name with
  | Some t =>
      let '((w', t'), r) := method (w, t) in
      ((w', set_templates <[name := t']> m), r)
  | None => ((w, m), Raise KeyError)
  end.

(** [config_section_map(config_file, section)] *)
Definition config_section_map (config_file section : string) : M world dict :=
  config ← ConfigParser.read config_file;
  let dict1 : dict := ∅ in
  if negb (bool_decide (section ∈ ConfigParser.sections config)) then mret dict1
  else
    options ← lift (ConfigParser.options config section);
    for_acc options dict1 (λ dict1 option,
      try_except
        (v ← lift (ConfigParser.get config section option);
         mret (<[option := PyStr v]> dict1))
        KeyError
        (mret (<[option := PyNone]> dict1))).

(** The loop of [is_valid_template] over the entries of the page directory,
    left at the first entry that ends in [.html]. *)
Fixpoint html_found (tdir : list string) : bool :=
  match tdir with
  | [] => false
  | tfile :: tdir' => if PyStr.endswith tfile ".html" then true else html_found tdir'
  end.

Section phishingpage.
Context (constants : constants).

Import posixpath.

(** [PhishingTemplate.__init__(self, name)] *)
Definition PhishingTemplate_init (name : string) : M world PhishingTemplate :=
  let config_path := join (PHISHING_PAGES_DIR constants) [name; "config.ini"] in
  info ← config_section_map config_path "info";
  display_name ← getitem info "name";
  description ← getitem info "description";
  payload ← (if bool_decide (is_Some (info !! "payloadpath"))
             then getitem info "payloadpath" else mret PyFalse);
  context ← config_section_map config_path "context";
  mret {| _name := name;
          display_name := display_name;
          _description := description;
          _payload := payload;
          _config_path := join (PHISHING_PAGES_DIR constants) [name; "config.ini"];
          path := join (PHISHING_PAGES_DIR constants)
                    [PyStr.lower name; SCENARIO_HTML_DIR constants];
          static_path := join (PHISHING_PAGES_DIR constants)
                           [PyStr.lower name; SCENARIO_HTML_DIR constants; "static"];
          context := context;
          _context := None;
          _extra_files := [] |}.

(** [PhishingTemplate.update_config_file(payload_filename, config_path)] *)
Definition update_config_file (payload_filename config_path : string) : M world unit :=
  original_config ← ConfigParser.read config_path;
  let config : ini := ∅ in
  config ← lift (ConfigParser.add_section config "info");
  options ← lift (ConfigParser.options original_config "info");
  config ← for_acc options config (λ config option,
    if negb (String.eqb option "payloadpath") then
      v ← lift (ConfigParser.get original_config "info" option);
      lift (ConfigParser.set config "info" option v)
    else
      old ← lift (ConfigParser.get original_config "info" "payloadpath");
      let dirname := dirname old in
      let filepath := join dirname [payload_filename] in
      lift (ConfigParser.set config "info" option filepath));
  config ← lift (ConfigParser.add_section config "context");
  old ← lift (ConfigParser.get original_config "context" "update_path");
  let dirname := dirname old in
  let filepath := join dirname [payload_filename] in
  config ← lift (ConfigParser.set config "context" "update_path" filepath);
  ConfigParser.write config config_path.

(** [PhishingTemplate.update_payload_path(self, filename)] *)
Definition update_payload_path (filename : string) : M (world * PhishingTemplate) unit :=
  config_path ← gets (λ s, _config_path s.2);
  io (update_config_file filename config_path);;
  info ← io (config_section_map config_path "info");
  set_self (set__payload PyFalse);;
  (if bool_decide (is_Some (info !! "payloadpath"))
   then v ← getitem info "payloadpath"; set_self (set__payload v)
   else mret tt);;
  context ← io (config_section_map config_path "context");
  set_self (set__context context);;
  set_self (set__extra_files []).

(** [PhishingTemplate.merge_context(self, context)].  The method returns
    nothing and updates the caller's dictionary in place, which becomes
    [self._context]; the result here is that dictionary after the call. *)
Definition merge_context (context : dict) : M (world * PhishingTemplate) dict :=
  current ← gets (λ s, _context s.2);
  match current with
  | None => raise AttributeError
  | Some current =>
      let context := current ∪ context in
      set_self (set__context context);;
      mret context
  end.

(** [PhishingTemplate.get_payload_path(self)] *)
Definition get_payload_path : M (world * PhishingTemplate) pyval :=
  gets (λ s, _payload s.2).

(** [PhishingTemplate.has_payload(self)] *)
Definition has_payload : M (world * PhishingTemplate) bool :=
  gets (λ s, truthy (_payload s.2)).

(** [PhishingTemplate.use_file(self, path)]; [None] is the result of the
    method when it falls off its end. *)
Definition use_file (path : string) : M (world * PhishingTemplate) (option string) :=
  is_file ← gets (λ s, negb (String.eqb path "") && os.path.isfile s.1 path);
  if is_file : bool then
    let filename := basename path in
    static_path ← gets (λ s, static_path s.2);
    io (copyfile path (static_path ++ filename));;
    set_self (λ t, set__extra_files (_extra_files t ++ [(static_path ++ filename)%string])%list t);;
    mret (Some filename)
  else mret None.

(** [PhishingTemplate.remove_extra_files(self)] *)
Definition remove_extra_files : M (world * PhishingTemplate) unit :=
  extra_files ← gets (λ s, _extra_files s.2);
  for_ extra_files (λ filename,
    is_file ← gets (λ s, os.path.isfile s.1 filename);
    if is_file : bool then io (os.remove filename) else mret tt).

(** [TemplateManager.is_valid_template(self, name)] *)
Definition is_valid_template (name : string) : M (world * TemplateManager) (bool * string) :=
  directory ← gets (λ s, _template_directory s.2);
  let dir_path := join directory [name] in
  entries ← io (os.listdir dir_path);
  if negb (bool_decide ("config.ini" ∈ entries)) then
    mret (false, "Configuration file not found in: ")
  else
    listed ← try_except
      (tdir ← io (os.listdir (join dir_path [SCENARIO_HTML_DIR constants]));
       mret (inl tdir))
      OSError
      (mret (inr (false, "No " ++ SCENARIO_HTML_DIR constants ++ " directory found in: ")));
    match listed with
    | inr returned => mret returned
    | inl tdir =>
        let html := html_found tdir in
        if negb html then mret (false, "No HTML files found in: ")
        else mret (true, name)
    end.

(** [TemplateManager.find_user_templates(self)] *)
Definition find_user_templates : M (world * TemplateManager) (list string) :=
  directory ← gets (λ s, _template_directory s.2);
  names ← io (os.listdir directory);
  for_acc names [] (λ local_templates name,
    candidate ← gets (λ s, os.path.isdir s.1 (join directory [name])
                           && negb (bool_decide (is_Some (templates s.2 !! name))));
    if candidate : bool then
      '(is_valid, output) ← is_valid_template name;
      if is_valid : bool then mret (local_templates ++ [name])%list
      else
        io (print ("[" ++ R constants ++ "!" ++ W constants ++ "] " ++ output ++ name));;
        mret local_templates
    else mret local_templates).

(** [TemplateManager.add_user_templates(self)] *)
Definition add_user_templates : M (world * TemplateManager) unit :=
  user_templates ← find_user_templates;
  for_ user_templates (λ template,
    local_template ← io (PhishingTemplate_init template);
    set_self (set_templates <[template := local_template]>)).

(** [TemplateManager.on_exit(self)] *)
Definition on_exit : M (world * TemplateManager) unit :=
  objects ← gets (λ s, map_to_list (templates s.2));
  for_ objects (λ '(name, _), call name remove_extra_files).

(** [TemplateManager.__init__(self)] *)
Definition TemplateManager_init : M world TemplateManager :=
  new {| _template_directory := PHISHING_PAGES_DIR constants; templates := ∅ |}
    (page_dirs ← io (os.listdir (PHISHING_PAGES_DIR constants));
     for_ page_dirs (λ page,
       is_dir ← gets (λ s, os.path.isdir s.1 page);
       valid ← (if is_dir : bool
                then '(ok, _) ← is_valid_template page; mret ok
                else mret false);
       if valid : bool then
         template ← io (PhishingTemplate_init page);
         set_self (set_templates <[page := template]>)
       else mret tt);;
     add_user_templates).

End phishingpage.

(** ** Descriptors on disk

    The definitions below are not code of the module: they name, for the
    statements that follow, what the module's code finds and builds. *)

(** What [ConfigParser.read] makes of the path [p]. *)
Definition descriptor_at (w : world) (p : string) : result ini :=
  match os.stat w p with
  | Some (File (Ini c)) => Ok c
  | Some (File (Blob _)) => Raise ParsingError
  | _ => Ok ∅
  end.

(** The dictionary [config_section_map] returns for the section [s] of [c]. *)
Definition section_dict (c : ini) (s : string) : dict :=
  PyStr <$> default ∅ (c !! s).

(** The [info] section [update_config_file] builds from the section [info]. *)
Definition rewritten_info (payload_filename : string) (info : gmap string string)
    : gmap string string :=
  map_imap (λ option v,
    Some (if String.eqb option "payloadpath"
          then posixpath.join (posixpath.dirname v) [payload_filename]
          else v)) info.

(** The descriptor [update_config_file] builds from the descriptor [c], or
    the exception it raises before it opens the file. *)
Definition rewritten (payload_filename : string) (c : ini) : result ini :=
  match c !! "info" with
  | None => Raise NoSectionError
  | Some info =>
      match ConfigParser.get c "context" "update_path" with
      | Raise x => Raise x
      | Ok old =>
          Ok {[ "info" := rewritten_info payload_filename info;
                "context" := {[ "update_path" :=
                   posixpath.join (posixpath.dirname old) [payload_filename] ]} ]}
      end
  end.

(** The entity after [update_payload_path] has read back the descriptor [c]. *)
Definition reloaded (c : ini) (t : PhishingTemplate) : PhishingTemplate :=
  set__extra_files []
    (set__context (section_dict c "context")
       (set__payload (default PyFalse (section_dict c "info" !! "payloadpath")) t)).

(** How [write_file] ends: nothing is written, or the file is opened and the
    write breaks, or the file holds the data. *)
Inductive written (w : world) (p : string) (d : data) : world * result unit → Prop :=
  | written_refused :
      written w p d (w, Raise IOError)
  | written_broken l rest :
      os.resolve w p = Some l →
      os.node_at w l ≠ Some Dir →
      wfault w !! l = Some (WriteBroken rest) →
      written w p d (set_files <[l := File rest]> w, Raise IOError)
  | written_ok l :
      os.resolve w p = Some l →
      os.node_at w l ≠ Some Dir →
      wfault w !! l = None →
      written w p d (set_files <[l := File d]> w, Ok tt).

(** [w'] is [w] without some of the regular files the paths of [staged]
    name in [w]; nothing else differs. *)
Definition cleaned (staged : list string) (w w' : world) : Prop :=
  cwd w' = cwd w ∧ locked w' = locked w ∧ wfault w' = wfault w
  ∧ stdout w' = stdout w
  ∧ ∀ l, files w' !! l = files w !! l
         ∨ (files w' !! l = None
            ∧ ∃ p d, p ∈ staged ∧ os.resolve w p = Some l
                     ∧ files w !! l = Some (File d)).

(** The system refuses to remove what [p] names. *)
Definition removal_refused (w : world) (p : string) : Prop :=
  ∃ l, os.resolve w p = Some l ∧ l ∈ locked w.

(** The round of the loop of [remove_extra_files]. *)
Definition remove_if_file (filename : string) : M (world * PhishingTemplate) unit :=
  is_file ← gets (λ s, os.path.isfile s.1 filename);
  if is_file : bool then io (os.remove filename) else mret tt.

(** The staged paths of all the templates of a manager. *)
Definition all_staged (m : TemplateManager) : list string :=
  map_to_list (templates m) ≫= λ kv, _extra_files kv.2.

(** The round of the loop of [on_exit]. *)
Definition clean_template (kv : string * PhishingTemplate)
    : M (world * TemplateManager) unit :=
  let '(name, _) := kv in call name remove_extra_files.

(** What [os.listdir(p)] returns or raises in [w]. *)
Definition listing (w : world) (p : string) : result (list string) :=
  (os.listdir p w).2.

(** [w'] is [w] up to what was printed. *)
Definition same_tree (w w' : world) : Prop :=
  files w' = files w ∧ cwd w' = cwd w ∧ locked w' = locked w
  ∧ wfault w' = wfault w.

(** The three rules of [is_valid_template] on the listings of the directory
    [directory/name] and of its page directory. *)
Definition validation (K : constants) (w : world) (directory name : string)
    : result (bool * string) :=
  let dir_path := posixpath.join directory [name] in
  match listing w dir_path with
  | Raise x => Raise x
  | Ok entries =>
      if negb (bool_decide ("config.ini" ∈ entries))
      then Ok (false, "Configuration file not found in: ")
      else
        match listing w (posixpath.join dir_path [SCENARIO_HTML_DIR K]) with
        | Raise _ => Ok (false, "No " ++ SCENARIO_HTML_DIR K ++ " directory found in: ")
        | Ok tdir =>
            if html_found tdir then Ok (true, name)
            else Ok (false, "No HTML files found in: ")
        end
  end.

(** [name] is a directory of the template directory that passes the rules. *)
Definition discovered (K : constants) (w : world) (m : TemplateManager)
    (name : string) : Prop :=
  (∃ names, listing w (_template_directory m) = Ok names ∧ name ∈ names)
  ∧ os.path.isdir w (posixpath.join (_template_directory m) [name]) = true
  ∧ validation K w (_template_directory m) name = Ok (true, name).

(** The round of the loop of [find_user_templates]. *)
Definition examine (K : constants) (directory : string)
    (local_templates : list string) (name : string)
    : M (world * TemplateManager) (list string) :=
  candidate ← gets (λ s, os.path.isdir s.1 (posixpath.join directory [name])
                         && negb (bool_decide (is_Some (templates s.2 !! name))));
  if candidate : bool then
    '(is_valid, output) ← is_valid_template K name;
    if is_valid : bool then mret (local_templates ++ [name])%list
    else
      io (print ("[" ++ R K ++ "!" ++ W K ++ "] " ++ output ++ name));;
      mret local_templates
  else mret local_templates.

(** The round of the loop of [add_user_templates]. *)
Definition adopt (K : constants) (template : string)
    : M (world * TemplateManager) unit :=
  local_template ← io (PhishingTemplate_init K template);
  set_self (set_templates <[template := local_template]>).

(** [s] has no [/]. *)
Fixpoint no_slash (s : string) : bool :=
  match s with
  | EmptyString => true
  | String c r => negb (Ascii.eqb c PyStr.slash) && no_slash r
  end.

(** ** A template directory to run the code on *)

Module Sample.

Definition K : constants :=
  Constants "/data/phishing-pages/" "html/" "(red)" "(white)".

Definition root : loc := ["data"; "phishing-pages"].

Definition info : gmap string string :=
  {[ "name" := "T"; "description" := "D"; "payloadpath" := "bin/old.exe" ]}.

Definition ctx : gmap string string :=
  {[ "update_path" := "up/old.exe"; "a" := "1" ]}.

(** The descriptor of the template [t]. *)
Definition descriptor : ini := {[ "info" := info; "context" := ctx ]}.

Definition config_path : string := "/data/phishing-pages/t/config.ini".
Definition config_loc : loc := (root ++ ["t"; "config.ini"])%list.

Definition tree : gmap loc node :=
  list_to_map
    [ (["data"], Dir); (root, Dir);
      ((root ++ ["t"])%list, Dir);
      (config_loc, File (Ini descriptor));
      ((root ++ ["t"; "html"])%list, Dir);
      ((root ++ ["t"; "html"; "index.html"])%list, File (Blob "<html>"));
      ((root ++ ["t"; "html"; "static"])%list, Dir);
      (["tmp"], Dir);
      (["tmp"; "logo.png"], File (Blob "png"));
      (["tmp"; "note.txt"], File (Blob "note")) ].

(** A world where nothing fails. *)
Definition world0 : world :=
  {| files := tree; cwd := []; locked := ∅; wfault := ∅; stdout := [] |}.

(** The template [PhishingTemplate("t")] in [world0]. *)
Definition template0 : PhishingTemplate :=
  {| _name := "t";
     display_name := PyStr "T";
     _description := PyStr "D";
     _payload := PyStr "bin/old.exe";
     _config_path := config_path;
     path := "/data/phishing-pages/t/html/";
     static_path := "/data/phishing-pages/t/html/static";
     context := PyStr <$> ctx;
     _context := None;
     _extra_files := [] |}.

(** [update_payload_path("new.exe")] in [world0]. *)
Definition updated : world * PhishingTemplate :=
  (update_payload_path "new.exe" (world0, template0)).1.



(** A descriptor with [context.update_path] and no [info.payloadpath]. *)
Definition info_plain : gmap string string :=
  {[ "name" := "T"; "description" := "D" ]}.

Definition descriptor_plain : ini := {[ "info" := info_plain; "context" := ctx ]}.

Definition world_plain : world :=
  set_files <[config_loc := File (Ini descriptor_plain)]> world0.

Definition template_plain : PhishingTemplate := set__payload PyFalse template0.


(** A descriptor whose [payloadpath] is empty. *)
Definition info_empty : gmap string string := <["payloadpath" := ""]> info.

Definition world_empty : world :=
  set_files <[config_loc := File (Ini {[ "info" := info_empty; "context" := ctx ]})]>
    world0.

Definition template_empty : PhishingTemplate := set__payload (PyStr "") template0.

(** [use_file("/tmp/logo.png")] in [world0], then [remove_extra_files()]. *)
Definition logo : string := "/data/phishing-pages/t/html/staticlogo.png".

Definition staged : world * PhishingTemplate :=
  (use_file "/tmp/logo.png" (world0, template0)).1.

Definition unstaged : world * PhishingTemplate :=
  (remove_extra_files (staged.1, staged.2)).1.

(** After [use_file("/tmp/logo.png")] and [use_file("/tmp/note.txt")], with
    the system refusing to remove the first copy. *)
Definition staged_twice : world * PhishingTemplate :=
  (use_file "/tmp/note.txt" (staged.1, staged.2)).1.


Definition manager (t : PhishingTemplate) : TemplateManager :=
  {| _template_directory := PHISHING_PAGES_DIR K; templates := {[ "t" := t ]} |}.

Definition exited : world * TemplateManager :=
  (on_exit (staged_twice.1, manager staged_twice.2)).1.


(** The template directory with a second template [u], a directory [v]
    without pages and a regular file [README]; the working directory has
    a directory [README]. *)
Definition descriptor_u : ini :=
  {[ "info" := {[ "name" := "U"; "description" := "second" ]} ]}.

Definition world_more : world :=
  {| files :=
       <[["home"; "README"] := Dir]>
         (<[["home"] := Dir]>
         (<[(root ++ ["README"])%list := File (Blob "read me")]>
         (<[(root ++ ["v"; "config.ini"])%list := File (Ini descriptor_u)]>
         (<[(root ++ ["v"])%list := Dir]>
         (<[(root ++ ["u"; "html"; "index.html"])%list := File (Blob "<html>")]>
         (<[(root ++ ["u"; "html"])%list := Dir]>
         (<[(root ++ ["u"; "config.ini"])%list := File (Ini descriptor_u)]>
         (<[(root ++ ["u"])%list := Dir]> tree))))))));
     cwd := ["home"]; locked := ∅; wfault := ∅; stdout := [] |}.

Definition template_u : PhishingTemplate :=
  {| _name := "u";
     display_name := PyStr "U";
     _description := PyStr "second";
     _payload := PyFalse;
     _config_path := "/data/phishing-pages/u/config.ini";
     path := "/data/phishing-pages/u/html/";
     static_path := "/data/phishing-pages/u/html/static";
     context := ∅;
     _context := None;
     _extra_files := [] |}.

(** Discovery run again by a manager that knows [t], with a file staged. *)
Definition rediscovered : world * TemplateManager :=
  (add_user_templates K (world_more, manager staged.2)).1.

Definition incoming : dict := {[ "a" := PyStr "2"; "b" := PyStr "3" ]}.

End Sample.

(** ** Discovery, by what it decides *)

(** [name] is an entry that [find_user_templates] takes: a directory of the
    template directory that is no key of [templates] and passes the rules. *)
Definition accepted (K : constants) (w : world) (m : TemplateManager)
    (name : string) : bool :=
  os.path.isdir w (posixpath.join (_template_directory m) [name])
  && negb (bool_decide (is_Some (templates m !! name)))
  && match validation K w (_template_directory m) name with
     | Ok (true, _) => true
     | _ => false
     end.

(** The line [find_user_templates] prints for [name], if it prints one. *)
Definition diagnostic (K : constants) (w : world) (m : TemplateManager)
    (name : string) : option string :=
  if os.path.isdir w (posixpath.join (_template_directory m) [name])
     && negb (bool_decide (is_Some (templates m !! name)))
  then match validation K w (_template_directory m) name with
       | Ok (false, output) =>
           Some ("[" ++ R K ++ "!" ++ W K ++ "] " ++ output ++ name)
       | _ => None
       end
  else None.

(** [w] after the lines were printed. *)
Definition printed (lines : list string) (w : world) : world :=
  {| files := files w; cwd := cwd w; locked := locked w;
     wfault := wfault w; stdout := (stdout w ++ lines)%list |}.

(** The round of the loop of [TemplateManager.__init__]. *)
Definition enroll (K : constants) (page : string) : M (world * TemplateManager) unit :=
  is_dir ← gets (λ s, os.path.isdir s.1 page);
  valid ← (if is_dir : bool
           then '(ok, _) ← is_valid_template K page; mret ok
           else mret false);
  if valid : bool then
    template ← io (PhishingTemplate_init K page);
    set_self (set_templates <[page := template]>)
  else mret tt.

(** [name] is a directory of [directory], listed as [names], that passes the
    rules. *)
Definition eligible (K : constants) (w : world) (directory : string)
    (names : list string) (name : string) : Prop :=
  name ∈ names
  ∧ os.path.isdir w (posixpath.join directory [name]) = true
  ∧ validation K w directory name = Ok (true, name).


(** ** Describing a template *)

(** [str(v)] *)
Definition py_str (v : pyval) : string :=
  match v with
  | PyFalse => "False"
  | PyNone => "None"
  | PyStr s => s
  end.

Definition newline : string := String (ascii_of_nat 10) "".
Definition tab : string := String (ascii_of_nat 9) "".

(** [PhishingTemplate.__str__(self)] *)
Definition PhishingTemplate_str : M (world * PhishingTemplate) string :=
  gets (λ s, py_str (display_name s.2) ++ newline ++ tab
             ++ py_str (_description s.2) ++ newline).

(** ** More runs on the sample directory *)

Module SampleRuns.
Import Sample.

Definition logo_loc : loc := (root ++ ["t"; "html"; "staticlogo.png"])%list.

(** The copy to the static directory breaks after three bytes. *)
Definition world_short : world :=
  {| files := tree; cwd := []; locked := ∅;
     wfault := {[ logo_loc := WriteBroken (Blob "png"%string) ]}; stdout := [] |}.

Definition cut_short : world * PhishingTemplate :=
  (use_file "/tmp/logo.png" (world_short, template0)).1.

(** A payload swap on the template with a staged file. *)
Definition swapped_staged : world * PhishingTemplate :=
  (update_payload_path "new.exe" (staged.1, staged.2)).1.


(** A merge after a payload swap, and a second merge. *)
Definition merged : world * PhishingTemplate :=
  (merge_context incoming (updated.1, updated.2)).1.


(** What [os.listdir] gives for the template directory of [world_more]. *)
Definition listed : list string :=
  match listing world_more (PHISHING_PAGES_DIR K) with
  | Ok names => names
  | Raise _ => []
  end.

End SampleRuns.

Example join_ex1 : posixpath.join "/a" ["b"; "c.ini"] = "/a/b/c.ini".
Proof. reflexivity. Qed.
Example join_ex2 : posixpath.join "/a/" ["html/"; "static"] = "/a/html/static".
Proof. reflexivity. Qed.
Example join_ex3 : posixpath.join "a" ["/b"; ""] = "/b/".
Proof. reflexivity. Qed.
Example dirname_ex1 : posixpath.dirname "/x/y/z.exe" = "/x/y".
Proof. reflexivity. Qed.
Example dirname_ex2 : posixpath.dirname "z.exe" = "".
Proof. reflexivity. Qed.
Example dirname_ex3 : posixpath.dirname "//z" = "//".
Proof. reflexivity. Qed.
Example dirname_ex4 : posixpath.dirname "a//z" = "a".
Proof. reflexivity. Qed.
Example basename_ex1 : posixpath.basename "/x/y/z.exe" = "z.exe".
Proof. reflexivity. Qed.
Example basename_ex2 : posixpath.basename "/x/y/" = "".
Proof. reflexivity. Qed.
Example split_ex : PyStr.split_slash "/a//b/" = [""; "a"; ""; "b"; ""].
Proof. reflexivity. Qed.
Example endswith_ex : PyStr.endswith "index.html" ".html" = true
                      /\ PyStr.endswith "html" ".html" = false.
Proof. split; reflexivity. Qed.
Example lower_ex : PyStr.lower "Ab-Z9" = "ab-z9".
Proof. reflexivity. Qed.

(** * Properties *)

(** ** The monad *)

Lemma bind_run {S A B} (m : M S A) (f : A → M S B) (s : S) :
  (m ≫= f) s =
  match m s with
  | (s', Ok a) => f a s'
  | (s', Raise e) => (s', Raise e)
  end.
Proof. reflexivity. Qed.

Ltac munfold :=
  unfold getitem, self, set_self in *;
  unfold io, gets, modify, lift, raise in *;
  unfold mbind, M_bind, mret, M_ret in *.

(** A loop whose body neither raises nor touches the state is a fold. *)
Lemma for_acc_pure {S A B} (P : B → Prop) (step : B → A → B)
    (body : B → A → M S B) (s : S) (l : list A) (acc : B) :
  P acc →
  (∀ b x, x ∈ l → P b → body b x s = (s, Ok (step b x)) ∧ P (step b x)) →
  for_acc l acc body s = (s, Ok (foldl step acc l)) ∧ P (foldl step acc l).
Proof.
  revert acc. induction l as [|x l IH]; intros acc Hacc Hbody; simpl.
  - split; [reflexivity | assumption].
  - destruct (Hbody acc x) as [Hrun Hstep]; [left | assumption |].
    rewrite bind_run, Hrun. apply IH; [assumption |].
    intros b y Hy. apply Hbody. by right.
Qed.

(** ** Finite maps *)

Lemma elem_of_keys {V} (m : gmap string V) (k : string) :
  k ∈ (map_to_list m).*1 ↔ is_Some (m !! k).
Proof.
  rewrite list_elem_of_fmap. split.
  - intros [[k' v] [-> Hin]]. apply elem_of_map_to_list in Hin. by exists v.
  - intros [v Hv]. exists (k, v). split; [done |]. by apply elem_of_map_to_list.
Qed.

Lemma foldl_insert_lookup {V} (g : string → V) (l : list string)
    (acc : gmap string V) (k : string) :
  foldl (λ d o, <[o := g o]> d) acc l !! k =
  if bool_decide (k ∈ l) then Some (g k) else acc !! k.
Proof.
  revert acc. induction l as [|x l IH]; intros acc; cbn [foldl].
  - rewrite bool_decide_eq_false_2; [done | apply not_elem_of_nil].
  - rewrite IH. destruct (bool_decide_reflect (k ∈ l)) as [Hin | Hnin].
    + rewrite bool_decide_eq_true_2; [done | by right].
    + destruct (decide (x = k)) as [-> | Hne].
      * rewrite lookup_insert_eq. rewrite bool_decide_eq_true_2; [done | left].
      * rewrite lookup_insert_ne by done.
        rewrite bool_decide_eq_false_2; [done |].
        intros [-> | ?]%elem_of_cons; done.
Qed.

(** ** Reading descriptors *)

Lemma read_eq (p : string) (w : world) :
  ConfigParser.read p w = (w, descriptor_at w p).
Proof.
  unfold ConfigParser.read, descriptor_at. rewrite bind_run. munfold.
  destruct (os.stat w p) as [[|[c|s]]|]; reflexivity.
Qed.

Lemma section_dict_lookup (c : ini) (s k : string) :
  section_dict c s !! k = PyStr <$> (default ∅ (c !! s) !! k).
Proof. unfold section_dict. apply lookup_fmap. Qed.

Lemma config_section_map_eq (p s : string) (w : world) :
  config_section_map p s w =
  (w, match descriptor_at w p with
      | Ok c => Ok (section_dict c s)
      | Raise x => Raise x
      end).
Proof.
  unfold config_section_map. rewrite bind_run, read_eq.
  destruct (descriptor_at w p) as [c|x]; [|reflexivity].
  destruct (bool_decide_reflect (s ∈ ConfigParser.sections c)) as [Hin | Hnin];
    cbn [negb].
  - apply elem_of_keys in Hin as [opts Hopts].
    rewrite bind_run. unfold ConfigParser.options, lift. rewrite Hopts.
    pose (g := λ o : string, PyStr (default "" (opts !! o))).
    destruct (for_acc_pure (λ _, True) (λ d o, <[o := g o]> d)
      (λ (dict1 : dict) (option : string),
         try_except
           (v ← lift (ConfigParser.get c s option);
            mret (<[option := PyStr v]> dict1))
           KeyError (mret (<[option := PyNone]> dict1)))
      w (map_to_list opts).*1 ∅) as [Hrun _]; [done | | ].
    + intros b x Hx _. split; [|done].
      apply elem_of_keys in Hx as [v Hv].
      unfold try_except, ConfigParser.get. rewrite bind_run. unfold lift.
      rewrite Hopts, Hv. unfold g. by rewrite Hv.
    + etrans; [exact Hrun |]. do 2 f_equal. apply map_eq. intros k.
      rewrite foldl_insert_lookup, section_dict_lookup, Hopts.
      change (default ∅ (Some opts)) with opts.
      destruct (bool_decide_reflect (k ∈ (map_to_list opts).*1)) as [Hk | Hk].
      * apply elem_of_keys in Hk as [v Hv]. unfold g. by rewrite Hv.
      * rewrite lookup_empty. destruct (opts !! k) as [v|] eqn:Hv; [|done].
        exfalso. apply Hk, elem_of_keys. by exists v.
  - munfold. do 2 f_equal. unfold section_dict.
    destruct (c !! s) as [opts|] eqn:Hopts.
    + exfalso. apply Hnin, elem_of_keys. by exists opts.
    + cbn. by rewrite fmap_empty.
Qed.

(** ** Construction of a template *)

(** What a template that was constructed holds. *)
Lemma PhishingTemplate_init_inv (K : constants) (name : string)
    (w w' : world) (t : PhishingTemplate) :
  PhishingTemplate_init K name w = (w', Ok t) →
  w' = w ∧
  ∃ c, descriptor_at w (posixpath.join (PHISHING_PAGES_DIR K) [name; "config.ini"]) = Ok c
    ∧ section_dict c "info" !! "name" = Some (display_name t)
    ∧ section_dict c "info" !! "description" = Some (_description t)
    ∧ _payload t = default PyFalse (section_dict c "info" !! "payloadpath")
    ∧ context t = section_dict c "context"
    ∧ _context t = None
    ∧ _extra_files t = []
    ∧ _name t = name
    ∧ _config_path t = posixpath.join (PHISHING_PAGES_DIR K) [name; "config.ini"]
    ∧ static_path t = posixpath.join (PHISHING_PAGES_DIR K)
                        [PyStr.lower name; SCENARIO_HTML_DIR K; "static"].
Proof.
  unfold PhishingTemplate_init.
  rewrite bind_run, config_section_map_eq.
  destruct (descriptor_at w _) as [c|x] eqn:Hd; [|discriminate].
  munfold.
  destruct (section_dict c "info" !! "name") as [n|] eqn:Hn; [|discriminate].
  destruct (section_dict c "info" !! "description") as [d|] eqn:Hdesc; [|discriminate].
  case_bool_decide as Hp.
  - destruct Hp as [v Hv]. rewrite Hv, config_section_map_eq, Hd.
    intros [= <- <-]. split; [done |]. exists c. cbn. by rewrite Hv.
  - rewrite config_section_map_eq, Hd.
    intros [= <- <-]. split; [done |]. exists c. cbn.
    destruct (section_dict c "info" !! "payloadpath") eqn:Hv; [|done].
    exfalso. apply Hp. eauto.
Qed.

(** The constructor reads and never writes. *)
Lemma PhishingTemplate_init_world (K : constants) (name : string) (w : world) :
  (PhishingTemplate_init K name w).1 = w.
Proof.
  unfold PhishingTemplate_init.
  rewrite bind_run, config_section_map_eq.
  destruct (descriptor_at w _) as [c|x] eqn:Hd; [|reflexivity].
  munfold.
  destruct (section_dict c "info" !! "name"); [|reflexivity].
  destruct (section_dict c "info" !! "description"); [|reflexivity].
  case_bool_decide as Hp.
  - destruct Hp as [v ->]. rewrite config_section_map_eq, Hd. reflexivity.
  - rewrite config_section_map_eq, Hd. reflexivity.
Qed.

(** ** The payload accessors *)

(** C10.  When the [info] section of the descriptor a template was
    constructed from has no [payloadpath] key, [get_payload_path] returns
    the boolean [False] (not a string, not [None]); [has_payload] returns the
    truth value of what [get_payload_path] returns, so for a [payloadpath]
    key set to the empty string it returns [False] as well. *)
Theorem get_payload_path_without_key (K : constants) (name : string)
    (w w' : world) (t : PhishingTemplate) (c : ini) (info : gmap string string) :
  PhishingTemplate_init K name w = (w', Ok t) →
  descriptor_at w (posixpath.join (PHISHING_PAGES_DIR K) [name; "config.ini"]) = Ok c →
  c !! "info" = Some info →
  (info !! "payloadpath" = None →
     get_payload_path (w', t) = ((w', t), Ok PyFalse))
  ∧ (info !! "payloadpath" = Some "" →
       get_payload_path (w', t) = ((w', t), Ok (PyStr ""))
       ∧ has_payload (w', t) = ((w', t), Ok false))
  ∧ (∀ s : world * PhishingTemplate,
       ∃ v, get_payload_path s = (s, Ok v) ∧ has_payload s = (s, Ok (truthy v))).
Proof.
  intros Hinit Hd Hinfo.
  apply PhishingTemplate_init_inv in Hinit
    as (-> & c' & Hd' & _ & _ & Hpayload & _).
  rewrite Hd in Hd'. injection Hd' as <-.
  rewrite section_dict_lookup, Hinfo in Hpayload.
  change (default ∅ (Some info)) with info in Hpayload.
  unfold get_payload_path, has_payload, gets. cbn [snd].
  split; [|split].
  - intros Hnone. by rewrite Hpayload, Hnone.
  - intros Hempty. by rewrite Hpayload, Hempty.
  - intros s. by exists (_payload s.2).
Qed.

(** ** Merging a context *)

(** Where [_context] is set, [merge_context] keeps the template's values and
    adds the keys it does not have. *)
Lemma merge_context_set (incoming current : dict) (w : world) (t : PhishingTemplate) :
  _context t = Some current →
  merge_context incoming (w, t)
  = ((w, set__context (current ∪ incoming) t), Ok (current ∪ incoming))
  ∧ (∀ k v, current !! k = Some v → (current ∪ incoming) !! k = Some v)
  ∧ (∀ k, current !! k = None → (current ∪ incoming) !! k = incoming !! k).
Proof.
  intros Hc. split; [|split].
  - unfold merge_context. rewrite bind_run. unfold gets. cbn [snd]. by rewrite Hc.
  - intros k v Hk. by apply lookup_union_Some_l.
  - intros k Hk. by apply lookup_union_r.
Qed.

(** C2.  [merge_context] on a template as [__init__] leaves it: [__init__]
    stores the context in the attribute [context] and [merge_context] reads
    the attribute [_context], which is not set, so the call raises
    [AttributeError] and merges nothing. *)
Theorem merge_context_on_new_template (K : constants) (name : string)
    (w w' : world) (t : PhishingTemplate) (incoming : dict) :
  PhishingTemplate_init K name w = (w', Ok t) →
  merge_context incoming (w', t) = ((w', t), Raise AttributeError).
Proof.
  intros Hinit.
  apply PhishingTemplate_init_inv in Hinit as (-> & c & _ & _ & _ & _ & _ & Hc & _).
  unfold merge_context. rewrite bind_run. unfold gets. cbn [snd]. by rewrite Hc.
Qed.

(** ** The file system *)

Lemma walk_ext (w w' : world) (cur : loc) (cs : list string) :
  (∀ l, os.is_dir_at w' l = os.is_dir_at w l) →
  os.walk w' cur cs = os.walk w cur cs.
Proof.
  intros Hdir. revert cur. induction cs as [|c cs IH]; intros cur; simpl.
  - reflexivity.
  - rewrite Hdir. destruct (os.is_dir_at w cur); [|reflexivity].
    by rewrite !IH.
Qed.

(** Resolution looks at the directories and at the working directory only. *)
Lemma resolve_ext (w w' : world) (p : string) :
  cwd w' = cwd w →
  (∀ l, os.is_dir_at w' l = os.is_dir_at w l) →
  os.resolve w' p = os.resolve w p.
Proof.
  intros Hcwd Hdir. unfold os.resolve. rewrite Hcwd.
  destruct (String.eqb p ""); [reflexivity |]. by apply walk_ext.
Qed.

Lemma node_at_set_files (f : gmap loc node → gmap loc node) (w : world) (l : loc) :
  l ≠ [] → os.node_at (set_files f w) l = f (files w) !! l.
Proof. by destruct l. Qed.

Lemma node_at_files (w : world) (l : loc) :
  l ≠ [] → os.node_at w l = files w !! l.
Proof. by destruct l. Qed.

Lemma is_dir_at_insert_file (w : world) (l l' : loc) (d : data) :
  os.node_at w l ≠ Some Dir →
  os.is_dir_at (set_files <[l := File d]> w) l' = os.is_dir_at w l'.
Proof.
  intros Hl. unfold os.is_dir_at.
  destruct l' as [|x l']; [reflexivity |].
  rewrite node_at_set_files, node_at_files by done.
  destruct (decide (l = x :: l')) as [-> | Hne].
  - rewrite lookup_insert_eq. rewrite node_at_files in Hl by done.
    by destruct (files w !! (x :: l')) as [[|?]|].
  - by rewrite lookup_insert_ne.
Qed.

Lemma is_dir_at_delete_file (w : world) (l l' : loc) (d : data) :
  os.node_at w l = Some (File d) →
  os.is_dir_at (set_files (delete l) w) l' = os.is_dir_at w l'.
Proof.
  intros Hl. unfold os.is_dir_at.
  destruct l' as [|x l']; [reflexivity |].
  rewrite node_at_set_files, node_at_files by done.
  destruct (decide (l = x :: l')) as [-> | Hne].
  - rewrite lookup_delete_eq. rewrite node_at_files in Hl by done. by rewrite Hl.
  - by rewrite lookup_delete_ne.
Qed.

Lemma resolve_insert_file (w : world) (l : loc) (d : data) (p : string) :
  os.node_at w l ≠ Some Dir →
  os.resolve (set_files <[l := File d]> w) p = os.resolve w p.
Proof.
  intros Hl. apply resolve_ext; [reflexivity |].
  intros l'. by apply is_dir_at_insert_file.
Qed.

Lemma resolve_delete_file (w : world) (l : loc) (d : data) (p : string) :
  os.node_at w l = Some (File d) →
  os.resolve (set_files (delete l) w) p = os.resolve w p.
Proof.
  intros Hl. apply resolve_ext; [reflexivity |].
  intros l'. by eapply is_dir_at_delete_file.
Qed.

Lemma write_file_written (w : world) (p : string) (d : data) :
  written w p d (os.write_file p d w).
Proof.
  unfold os.write_file.
  destruct (os.resolve w p) as [l|] eqn:Hl; [|constructor].
  destruct (os.names_directory p); [constructor |].
  destruct (os.node_at w l) as [[|d0]|] eqn:Hn; [constructor | |].
  - destruct (wfault w !! l) as [[|rest]|] eqn:Hf.
    + constructor.
    + apply written_broken; [done | congruence | done].
    + apply written_ok; [done | congruence | done].
  - destruct (wfault w !! l) as [[|rest]|] eqn:Hf.
    + constructor.
    + apply written_broken; [done | congruence | done].
    + apply written_ok; [done | congruence | done].
Qed.

(** After a write that did not fail, the path holds what was written. *)
Lemma stat_written (w : world) (p : string) (l : loc) (d : data) :
  os.resolve w p = Some l →
  os.node_at w l ≠ Some Dir →
  os.stat (set_files <[l := File d]> w) p = Some (File d).
Proof.
  intros Hl Hn. unfold os.stat.
  rewrite resolve_insert_file, Hl by done. cbn.
  destruct l as [|x l]; [done |].
  rewrite node_at_set_files by done. apply lookup_insert_eq.
Qed.

(** ** Rewriting the descriptor *)

Lemma rewritten_info_lookup (fn : string) (info : gmap string string) (k : string) :
  rewritten_info fn info !! k =
  (λ v, if String.eqb k "payloadpath"
        then posixpath.join (posixpath.dirname v) [fn] else v) <$> info !! k.
Proof.
  unfold rewritten_info. rewrite map_lookup_imap.
  by destruct (info !! k).
Qed.

Lemma foldl_set_info (g : string → string) (l : list string) (i0 : gmap string string) :
  foldl (λ (config : ini) o,
           <["info" := <[o := g o]> (default ∅ (config !! "info"))]> config)
        {["info" := i0]} l
  = {["info" := foldl (λ i o, <[o := g o]> i) i0 l]}.
Proof.
  revert i0. induction l as [|x l IH]; intros i0; cbn [foldl]; [reflexivity |].
  rewrite lookup_singleton_eq. change (default ∅ (Some i0)) with i0.
  rewrite insert_singleton_eq. apply IH.
Qed.

(** [update_config_file] reads the descriptor, builds the new one and writes
    it over the old one; it raises before it opens the file when the old one
    cannot be read or lacks what the new one is built from. *)
Lemma update_config_file_eq (fn p : string) (w : world) :
  update_config_file fn p w =
  match descriptor_at w p with
  | Raise x => (w, Raise x)
  | Ok c =>
      match rewritten fn c with
      | Raise x => (w, Raise x)
      | Ok c' => os.write_file p (Ini c') w
      end
  end.
Proof.
  unfold update_config_file. rewrite bind_run, read_eq.
  destruct (descriptor_at w p) as [c|x]; [|reflexivity].
  rewrite bind_run. unfold ConfigParser.add_section at 1, lift at 1.
  rewrite lookup_empty, insert_empty.
  rewrite bind_run. unfold ConfigParser.options, lift at 1, rewritten.
  destruct (c !! "info") as [info|] eqn:Hinfo; [|reflexivity].
  pose (g := λ o : string,
    let v := default "" (info !! o) in
    if String.eqb o "payloadpath"
    then posixpath.join (posixpath.dirname v) [fn] else v).
  rewrite bind_run.
  match goal with
  | |- context [for_acc ?l ?acc ?body w] =>
      destruct (for_acc_pure (S := world)
        (λ config : ini, is_Some (config !! "info"))
        (λ (config : ini) o,
           <["info" := <[o := g o]> (default ∅ (config !! "info"))]> config)
        body w l acc) as [Hrun _]
  end.
  - rewrite lookup_singleton_eq. eauto.
  - intros b x Hx [opts Hopts].
    apply elem_of_keys in Hx as [v Hv].
    split; [|rewrite lookup_insert_eq; eauto].
    unfold ConfigParser.get, ConfigParser.set, g.
    rewrite Hinfo, Hopts, Hv. cbn [default].
    destruct (String.eqb x "payloadpath") eqn:Hx; cbn [negb].
    + apply String.eqb_eq in Hx as ->.
      rewrite bind_run. unfold lift. rewrite Hv. reflexivity.
    + rewrite bind_run. unfold lift. reflexivity.
  - rewrite Hrun, foldl_set_info.
    assert (foldl (λ i o, <[o := g o]> i) ∅ (map_to_list info).*1
            = rewritten_info fn info) as ->.
    { apply map_eq. intros k.
      rewrite foldl_insert_lookup, rewritten_info_lookup.
      destruct (bool_decide_reflect (k ∈ (map_to_list info).*1)) as [Hk | Hk].
      - apply elem_of_keys in Hk as [v Hv]. unfold g. by rewrite Hv.
      - rewrite lookup_empty. destruct (info !! k) as [v|] eqn:Hv; [|done].
        exfalso. apply Hk, elem_of_keys. eauto. }
    rewrite bind_run. unfold ConfigParser.add_section, lift at 1.
    rewrite lookup_singleton_ne by done.
    rewrite bind_run. unfold lift at 1.
    destruct (ConfigParser.get c "context" "update_path") as [old|x]; [|reflexivity].
    rewrite bind_run. unfold ConfigParser.set, lift.
    rewrite lookup_insert_eq, insert_insert_eq, insert_empty.
    unfold ConfigParser.write. by do 2 f_equal.
Qed.

(** ** Swapping the payload *)

(** [update_payload_path] changes the template only after the descriptor was
    rewritten and read back. *)
Lemma update_payload_path_run (fn : string) (w : world) (t : PhishingTemplate) :
  update_payload_path fn (w, t) =
  match update_config_file fn (_config_path t) w with
  | (w1, Raise x) => ((w1, t), Raise x)
  | (w1, Ok _) =>
      match descriptor_at w1 (_config_path t) with
      | Raise x => ((w1, t), Raise x)
      | Ok c' => ((w1, reloaded c' t), Ok tt)
      end
  end.
Proof.
  unfold update_payload_path. rewrite bind_run. unfold gets at 1. cbn [snd].
  rewrite bind_run. unfold io at 1.
  destruct (update_config_file fn (_config_path t) w) as [w1 [[]|x]]; [|reflexivity].
  rewrite bind_run. unfold io at 1. rewrite config_section_map_eq.
  destruct (descriptor_at w1 (_config_path t)) as [c'|x] eqn:Hd; [|reflexivity].
  rewrite bind_run. unfold set_self at 1, modify at 1.
  rewrite bind_run.
  unfold reloaded.
  case_bool_decide as Hp.
  - destruct Hp as [v Hv]. munfold. rewrite Hv. cbn.
    rewrite config_section_map_eq, Hd. reflexivity.
  - munfold. cbn. rewrite config_section_map_eq, Hd.
    destruct (section_dict c' "info" !! "payloadpath") eqn:Hv; [|reflexivity].
    exfalso. apply Hp. eauto.
Qed.

(** What a successful write of the descriptor leaves to read. *)
Lemma descriptor_at_written (w : world) (p : string) (l : loc) (c : ini) :
  os.resolve w p = Some l →
  os.node_at w l ≠ Some Dir →
  descriptor_at (set_files <[l := File (Ini c)]> w) p = Ok c.
Proof.
  intros Hl Hn. unfold descriptor_at. by rewrite (stat_written w p l).
Qed.



(** What [update_payload_path] does when it returns. *)
Lemma update_payload_path_ok (fn : string) (w w' : world) (t t' : PhishingTemplate) :
  update_payload_path fn (w, t) = ((w', t'), Ok tt) →
  ∃ c c' l,
    descriptor_at w (_config_path t) = Ok c
    ∧ rewritten fn c = Ok c'
    ∧ os.resolve w (_config_path t) = Some l
    ∧ w' = set_files <[l := File (Ini c')]> w
    ∧ descriptor_at w' (_config_path t) = Ok c'
    ∧ t' = reloaded c' t.
Proof.
  rewrite update_payload_path_run, update_config_file_eq.
  destruct (descriptor_at w (_config_path t)) as [c|x0]; [|discriminate].
  destruct (rewritten fn c) as [c'|x0] eqn:Hc'; [|discriminate].
  destruct (write_file_written w (_config_path t) (Ini c'))
    as [| l rest Hl Hn Hf | l Hl Hn Hf]; [discriminate.. |].
  rewrite descriptor_at_written by done.
  intros [= <- <-]. exists c, c', l.
  by rewrite descriptor_at_written.
Qed.

Lemma string_app_assoc (a b c : string) : (a ++ b) ++ c = a ++ (b ++ c).
Proof.
  induction a as [|x a IH]; [reflexivity |].
  change (String x ((a ++ b) ++ c) = String x (a ++ b ++ c)). by f_equal.
Qed.




(** ** Loops *)

Section loops.
Context {S A : Type} (body : A → M S unit) (I : S → Prop).

(** An invariant of the body, kept also when the body raises, holds when
    the loop is left. *)
Lemma for_invariant (l : list A) (s s' : S) (r : result unit) :
  (∀ x s s' r, x ∈ l → I s → body x s = (s', r) → I s') →
  I s → for_ l body s = (s', r) → I s'.
Proof.
  revert s. induction l as [|x l IH]; intros s Hbody Hs; simpl.
  - by intros [= <- <-].
  - rewrite bind_run. destruct (body x s) as [s1 [[]|e]] eqn:Hx.
    + apply IH.
      * intros y s2 s3 r2 Hy. apply Hbody. by right.
      * eapply Hbody; [left | exact Hs | exact Hx].
    + intros [= <- <-]. eapply Hbody; [left | exact Hs | exact Hx].
Qed.

(** What every round establishes and no later round undoes holds for all
    the elements when the loop returns. *)
Lemma for_all_rounds (Q : A → S → Prop) (l : list A) (s s' : S) :
  (∀ x s s' r, x ∈ l → I s → body x s = (s', r) → I s') →
  (∀ x s s', x ∈ l → I s → body x s = (s', Ok tt) → Q x s') →
  (∀ x y s s' r, y ∈ l → I s → Q x s → body y s = (s', r) → Q x s') →
  I s → for_ l body s = (s', Ok tt) → ∀ x, x ∈ l → Q x s'.
Proof.
  revert s. induction l as [|x l IH]; intros s Hinv Hq Hstable Hs; simpl.
  - intros _ y Hy. by apply not_elem_of_nil in Hy.
  - rewrite bind_run. destruct (body x s) as [s1 [[]|e]] eqn:Hx; [|discriminate].
    intros Hrest y Hy.
    assert (I s1) as Hs1 by (eapply Hinv; [left | exact Hs | exact Hx]).
    assert (∀ z s2 s3 r2, z ∈ l → I s2 → body z s2 = (s3, r2) → I s3) as Hinv'.
    { intros z s2 s3 r2 Hz. apply Hinv. by right. }
    apply elem_of_cons in Hy as [-> | Hy].
    + assert (Q x s1) as Hq1 by (eapply Hq; [left | exact Hs | exact Hx]).
      clear IH Hx. revert s1 Hs1 Hq1 Hrest.
      induction l as [|z l IHl]; intros s1 Hs1 Hq1; simpl.
      * by intros [= <-].
      * rewrite bind_run. destruct (body z s1) as [s2 [[]|e]] eqn:Hz; [|discriminate].
        apply IHl.
        -- intros u s3 s4 r3 Hu. apply Hinv.
           apply elem_of_cons in Hu as [-> | Hu]; [left | right; by right].
        -- intros u s3 s4 Hu. apply Hq.
           apply elem_of_cons in Hu as [-> | Hu]; [left | right; by right].
        -- intros u v s3 s4 r3 Hv. apply Hstable.
           apply elem_of_cons in Hv as [-> | Hv]; [left | right; by right].
        -- intros u s3 s4 r3 Hu. apply Hinv'. by right.
        -- eapply Hinv'; [left | exact Hs1 | exact Hz].
        -- eapply Hstable; [right; left | exact Hs1 | exact Hq1 | exact Hz].
    + eapply (IH s1); try eassumption.
      * intros z s2 s3 Hz. apply Hq. by right.
      * intros u v s2 s3 r2 Hv. apply Hstable. by right.
Qed.

(** A loop that raises was left by a round that raised. *)
Lemma for_raised (l : list A) (s s' : S) (e : exn) :
  (∀ x s s', x ∈ l → I s → body x s = (s', Ok tt) → I s') →
  I s → for_ l body s = (s', Raise e) →
  ∃ x s0, x ∈ l ∧ I s0 ∧ body x s0 = (s', Raise e).
Proof.
  revert s. induction l as [|x l IH]; intros s Hinv Hs; simpl.
  - discriminate.
  - rewrite bind_run. destruct (body x s) as [s1 [[]|e']] eqn:Hx.
    + intros Hrest. destruct (IH s1) as (y & s0 & Hy & Hs0 & Hrun); try done.
      * intros z s2 s3 Hz. apply Hinv. by right.
      * eapply Hinv; [left | exact Hs | exact Hx].
      * exists y, s0. split; [by right | done].
    + intros [= <- <-]. exists x, s. split; [left | done].
Qed.

(** A loop whose rounds all return returns. *)
Lemma for_returns (l : list A) (s : S) :
  (∀ x s, x ∈ l → I s → ∃ s', body x s = (s', Ok tt) ∧ I s') →
  I s → ∃ s', for_ l body s = (s', Ok tt) ∧ I s'.
Proof.
  revert s. induction l as [|x l IH]; intros s Hbody Hs; simpl.
  - by exists s.
  - rewrite bind_run. destruct (Hbody x s) as (s1 & -> & Hs1); [left | done |].
    apply IH; [|done]. intros y s2 Hy. apply Hbody. by right.
Qed.

End loops.

(** ** Removing the staged files *)

Lemma cleaned_refl (staged : list string) (w : world) : cleaned staged w w.
Proof. repeat split. intros l. by left. Qed.

Lemma cleaned_is_dir_at (staged : list string) (w w' : world) (l : loc) :
  cleaned staged w w' → os.is_dir_at w' l = os.is_dir_at w l.
Proof.
  intros (_ & _ & _ & _ & Hfiles). unfold os.is_dir_at.
  destruct l as [|x l]; [reflexivity |].
  rewrite !node_at_files by done.
  destruct (Hfiles (x :: l)) as [-> | [-> (p & d & _ & _ & ->)]]; reflexivity.
Qed.

Lemma cleaned_resolve (staged : list string) (w w' : world) (p : string) :
  cleaned staged w w' → os.resolve w' p = os.resolve w p.
Proof.
  intros Hc. apply resolve_ext; [apply Hc |].
  intros l. by eapply cleaned_is_dir_at.
Qed.

(** A path that names no regular file names none after a cleaning. *)
Lemma cleaned_isfile (staged : list string) (w w' : world) (p : string) :
  cleaned staged w w' → os.path.isfile w p = false → os.path.isfile w' p = false.
Proof.
  intros Hc. unfold os.path.isfile, os.stat.
  rewrite (cleaned_resolve staged w w') by done.
  destruct (os.resolve w p) as [l|]; [|done]. cbn.
  destruct l as [|x l]; [done |].
  rewrite !node_at_files by done.
  destruct Hc as (_ & _ & _ & _ & Hfiles).
  destruct (Hfiles (x :: l)) as [-> | [-> _]]; done.
Qed.

Lemma cleaned_trans (staged : list string) (w w1 w2 : world) :
  cleaned staged w w1 → cleaned staged w1 w2 → cleaned staged w w2.
Proof.
  intros H1 H2.
  pose proof H1 as (Hc1 & Hl1 & Hf1 & Hs1 & Hfiles1).
  pose proof H2 as (Hc2 & Hl2 & Hf2 & Hs2 & Hfiles2).
  repeat split; try congruence.
  intros l. destruct (Hfiles2 l) as [-> | [-> (p & d & Hp & Hres & Hd)]].
  - apply Hfiles1.
  - destruct (Hfiles1 l) as [Heq | [Hnone _]]; [|left; congruence].
    right. split; [done |]. exists p, d.
    rewrite <- (cleaned_resolve staged w w1), <- Heq; done.
Qed.

Lemma node_at_file (w : world) (l : loc) (d : data) :
  os.node_at w l = Some (File d) → l ≠ [] ∧ files w !! l = Some (File d).
Proof. by destruct l. Qed.

(** The three ways a round of the loop can go. *)
Lemma remove_if_file_cases (p : string) (w : world) (t : PhishingTemplate) :
  (os.path.isfile w p = false ∧ remove_if_file p (w, t) = ((w, t), Ok tt))
  ∨ (∃ l d, os.resolve w p = Some l ∧ os.node_at w l = Some (File d)
            ∧ l ∈ locked w
            ∧ remove_if_file p (w, t) = ((w, t), Raise OSError))
  ∨ (∃ l d, os.resolve w p = Some l ∧ os.node_at w l = Some (File d)
            ∧ (l ∉ locked w)
            ∧ remove_if_file p (w, t) = ((set_files (delete l) w, t), Ok tt)).
Proof.
  unfold remove_if_file. rewrite bind_run. unfold gets. cbn [fst].
  unfold os.path.isfile, os.stat, io, os.remove.
  destruct (os.resolve w p) as [l|] eqn:Hl; [|left; done]. cbn.
  destruct (os.node_at w l) as [[|d]|] eqn:Hn; [left; done | | left; done].
  right. destruct (decide (l ∈ locked w)) as [Hlock | Hlock].
  - left. exists l, d. rewrite Hl, Hn, decide_True by done. done.
  - right. exists l, d. rewrite Hl, Hn, decide_False by done. done.
Qed.

Lemma remove_if_file_cleaned (staged : list string) (p : string)
    (w w' : world) (t t' : PhishingTemplate) (r : result unit) :
  p ∈ staged →
  remove_if_file p (w, t) = ((w', t'), r) →
  t' = t ∧ cleaned staged w w'.
Proof.
  intros Hp.
  destruct (remove_if_file_cases p w t)
    as [[_ ->] | [(l & d & _ & _ & _ & ->) | (l & d & Hl & Hd & _ & ->)]].
  - intros [= <- <- <-]. split; [done | apply cleaned_refl].
  - intros [= <- <- <-]. split; [done | apply cleaned_refl].
  - intros [= <- <- <-]. split; [done |]. repeat split. intros l'. cbn.
    apply node_at_file in Hd as [_ Hd].
    destruct (decide (l = l')) as [<- | Hne].
    + right. rewrite lookup_delete_eq. split; [done |]. by exists p, d.
    + left. by rewrite lookup_delete_ne.
Qed.

Lemma remove_if_file_gone (p : string) (w w' : world) (t t' : PhishingTemplate) :
  remove_if_file p (w, t) = ((w', t'), Ok tt) → os.path.isfile w' p = false.
Proof.
  destruct (remove_if_file_cases p w t)
    as [[Hf ->] | [(l & d & _ & _ & _ & ->) | (l & d & Hl & Hd & _ & ->)]].
  - by intros [= <- <-].
  - discriminate.
  - intros [= <- <-]. unfold os.path.isfile, os.stat.
    rewrite (resolve_delete_file w l d), Hl by done. cbn.
    apply node_at_file in Hd as [Hne _].
    rewrite node_at_set_files by done. by rewrite lookup_delete_eq.
Qed.

Lemma remove_extra_files_unfold (w : world) (t : PhishingTemplate) :
  remove_extra_files (w, t) = for_ (_extra_files t) remove_if_file (w, t).
Proof. reflexivity. Qed.

Lemma remove_nothing (l : list string) (w : world) (t : PhishingTemplate) :
  (∀ p, p ∈ l → os.path.isfile w p = false) →
  for_ l remove_if_file (w, t) = ((w, t), Ok tt).
Proof.
  induction l as [|p l IH]; intros Hl; simpl; [reflexivity |].
  rewrite bind_run.
  destruct (remove_if_file_cases p w t)
    as [[_ ->] | [(l0 & d & Hr & Hn & _) | (l0 & d & Hr & Hn & _)]].
  - apply IH. intros q Hq. apply Hl. by right.
  - specialize (Hl p ltac:(left)). unfold os.path.isfile, os.stat in Hl.
    rewrite Hr in Hl. cbn in Hl. by rewrite Hn in Hl.
  - specialize (Hl p ltac:(left)). unfold os.path.isfile, os.stat in Hl.
    rewrite Hr in Hl. cbn in Hl. by rewrite Hn in Hl.
Qed.

(** The invariant of the loop of [remove_extra_files] started in [(w, t)]. *)
Lemma remove_round_invariant (w : world) (t : PhishingTemplate) (p : string)
    (s s' : world * PhishingTemplate) (r : result unit) :
  p ∈ _extra_files t →
  s.2 = t ∧ cleaned (_extra_files t) w s.1 →
  remove_if_file p s = (s', r) →
  s'.2 = t ∧ cleaned (_extra_files t) w s'.1.
Proof.
  destruct s as [w1 t1], s' as [w2 t2]. cbn. intros Hp [-> Hc] Hrun.
  apply (remove_if_file_cleaned (_extra_files t)) in Hrun as [-> Hc']; [|done].
  split; [done |]. by eapply cleaned_trans.
Qed.

Local Abbreviation round_invariant w t :=
  (λ s : world * PhishingTemplate, s.2 = t ∧ cleaned (_extra_files t) w s.1).

(** [remove_extra_files] leaves the template as it is and removes nothing
    but regular files that staged paths name. *)
Lemma remove_extra_files_cleaned (w w1 : world) (t t1 : PhishingTemplate)
    (r : result unit) :
  remove_extra_files (w, t) = ((w1, t1), r) →
  t1 = t ∧ cleaned (_extra_files t) w w1.
Proof.
  rewrite remove_extra_files_unfold. intros Hrun.
  apply (for_invariant remove_if_file (round_invariant w t)) in Hrun; [done | |].
  - intros x s s' r0 Hx Hs Hx'. by eapply remove_round_invariant.
  - split; [done | apply cleaned_refl].
Qed.

(** When it returns, no staged path names a regular file. *)
Lemma remove_extra_files_gone (w w1 : world) (t t1 : PhishingTemplate) (p : string) :
  remove_extra_files (w, t) = ((w1, t1), Ok tt) →
  p ∈ _extra_files t → os.path.isfile w1 p = false.
Proof.
  rewrite remove_extra_files_unfold. intros Hrun Hp.
  apply (for_all_rounds remove_if_file (round_invariant w t)
           (λ p s, os.path.isfile s.1 p = false)) with (x := p) in Hrun;
    [done | | | | | done].
  - intros x s s' r0 Hx Hs Hx'. by eapply remove_round_invariant.
  - intros x [w2 t2] [w3 t3] _ _ Hx. by apply remove_if_file_gone in Hx.
  - intros x y [w2 t2] [w3 t3] r0 Hy _ Hq Hy'. cbn in *.
    apply (remove_if_file_cleaned (_extra_files t)) in Hy' as [_ Hc']; [|done].
    by eapply cleaned_isfile.
  - split; [done | apply cleaned_refl].
Qed.

(** It returns when no removal is refused. *)
Lemma remove_extra_files_returns (w : world) (t : PhishingTemplate) :
  (∀ p, p ∈ _extra_files t → ¬ removal_refused w p) →
  ∃ w1, remove_extra_files (w, t) = ((w1, t), Ok tt).
Proof.
  intros Hfree. rewrite remove_extra_files_unfold.
  destruct (for_returns remove_if_file (round_invariant w t) (_extra_files t) (w, t))
    as ([w1 t1] & Hret & Ht1 & _).
  - intros x [w2 t2] Hx [Ht2 Hc2]. cbn in Ht2, Hc2. subst t2.
    destruct (remove_if_file_cases x w2 t)
      as [[_ Hr] | [(l & d & Hl & _ & Hlock & _) | (l & d & _ & _ & _ & Hr)]].
    + eexists. split; [exact Hr |].
      eapply remove_round_invariant; [exact Hx | | exact Hr]; by split.
    + exfalso. apply (Hfree x Hx). exists l.
      rewrite <- (cleaned_resolve _ _ _ _ Hc2). split; [done |].
      destruct Hc2 as (_ & <- & _). done.
    + eexists. split; [exact Hr |].
      eapply remove_round_invariant; [exact Hx | | exact Hr]; by split.
  - split; [done | apply cleaned_refl].
  - cbn in Ht1. subst t1. by exists w1.
Qed.


(** C6.  [remove_extra_files] never changes the template, so the list of
    staged files is not cleared, and removes nothing but regular files the
    staged paths name.  When it returns, no staged path names a regular file
    any more, and calling it again returns without an error and removes
    nothing: a staged file is deleted once.  A staged path that names no
    regular file is passed over without an error; the call returns whenever
    the system refuses none of the removals. *)
Theorem remove_extra_files_idempotent (w w1 : world) (t t1 : PhishingTemplate)
    (r : result unit) :
  remove_extra_files (w, t) = ((w1, t1), r) →
  t1 = t
  ∧ cleaned (_extra_files t) w w1
  ∧ (r = Ok tt →
       (∀ p, p ∈ _extra_files t → os.path.isfile w1 p = false)
       ∧ remove_extra_files (w1, t1) = ((w1, t1), Ok tt))
  ∧ ((∀ p, p ∈ _extra_files t → os.path.isfile w p = false) →
       r = Ok tt ∧ w1 = w)
  ∧ ((∀ p, p ∈ _extra_files t → ¬ removal_refused w p) → r = Ok tt).
Proof.
  intros Hrun.
  destruct (remove_extra_files_cleaned _ _ _ _ _ Hrun) as [-> Hc].
  split; [done |]. split; [done |]. split; [|split].
  - intros ->.
    assert (∀ p, p ∈ _extra_files t → os.path.isfile w1 p = false) as Hgone.
    { intros p. by eapply remove_extra_files_gone. }
    split; [done |]. rewrite remove_extra_files_unfold. by apply remove_nothing.
  - intros Hnone. rewrite remove_extra_files_unfold, remove_nothing in Hrun by done.
    by injection Hrun as <- <-.
  - intros Hfree. destruct (remove_extra_files_returns w t Hfree) as [w2 Hret].
    rewrite Hret in Hrun. by injection Hrun as _ <-.
Qed.

(** ** Cleaning up on exit *)

Lemma cleaned_mono (l l' : list string) (w w' : world) :
  (∀ p, p ∈ l → p ∈ l') → cleaned l w w' → cleaned l' w w'.
Proof.
  intros Hsub (? & ? & ? & ? & Hfiles). repeat split; try done.
  intros k. destruct (Hfiles k) as [? | [? (p & d & Hp & ?)]]; [by left |].
  right. split; [done |]. exists p, d. split; [by apply Hsub | done].
Qed.

Lemma elem_of_all_staged (m : TemplateManager) (p : string) :
  p ∈ all_staged m ↔
  ∃ name t, templates m !! name = Some t ∧ p ∈ _extra_files t.
Proof.
  unfold all_staged. rewrite list_elem_of_bind. split.
  - intros ([name t] & Hp & Hin). exists name, t.
    split; [by apply elem_of_map_to_list | done].
  - intros (name & t & Hin & Hp). exists (name, t).
    split; [done | by apply elem_of_map_to_list].
Qed.

Lemma set_templates_insert_id (m : TemplateManager) (name : string)
    (t : PhishingTemplate) :
  templates m !! name = Some t → set_templates <[name := t]> m = m.
Proof.
  intros Ht. destruct m as [d ts]. unfold set_templates. cbn in *.
  by rewrite insert_id.
Qed.

Lemma on_exit_unfold (w : world) (m : TemplateManager) :
  on_exit (w, m) = for_ (map_to_list (templates m)) clean_template (w, m).
Proof. reflexivity. Qed.

(** A round of [on_exit] is [remove_extra_files] on the template. *)
Lemma clean_template_run (name : string) (t : PhishingTemplate)
    (w : world) (m : TemplateManager) :
  templates m !! name = Some t →
  ∃ w1 r, remove_extra_files (w, t) = ((w1, t), r)
          ∧ clean_template (name, t) (w, m) = ((w1, m), r).
Proof.
  intros Ht. unfold clean_template, call. rewrite Ht.
  destruct (remove_extra_files (w, t)) as [[w1 t1] r] eqn:Hrun.
  destruct (remove_extra_files_cleaned _ _ _ _ _ Hrun) as [-> _].
  exists w1, r. split; [done |]. by rewrite set_templates_insert_id.
Qed.

Local Abbreviation exit_invariant w m :=
  (λ s : world * TemplateManager, s.2 = m ∧ cleaned (all_staged m) w s.1).

Lemma clean_template_invariant (w : world) (m : TemplateManager)
    (kv : string * PhishingTemplate) (s s' : world * TemplateManager)
    (r : result unit) :
  kv ∈ map_to_list (templates m) →
  exit_invariant w m s → clean_template kv s = (s', r) → exit_invariant w m s'.
Proof.
  destruct kv as [name t], s as [w1 m1]. intros Hkv [Hm Hc]. cbn in Hm, Hc.
  subst m1. apply elem_of_map_to_list in Hkv.
  destruct (clean_template_run name t w1 m Hkv) as (w2 & r' & Hrun & ->).
  intros [= <- <-]. split; [done |]. cbn.
  apply remove_extra_files_cleaned in Hrun as [_ Hc'].
  eapply cleaned_trans; [exact Hc |]. eapply cleaned_mono; [|exact Hc'].
  intros p Hp. apply elem_of_all_staged. eauto.
Qed.


(** ** Validating a template directory *)

Lemma listdir_eq (p : string) (w : world) : os.listdir p w = (w, listing w p).
Proof.
  unfold listing, os.listdir.
  destruct (os.resolve w p) as [l|]; [|done].
  by destruct (os.node_at w l) as [[|d]|].
Qed.

Lemma listing_raises (w : world) (p : string) (x : exn) :
  listing w p = Raise x → x = OSError.
Proof.
  unfold listing, os.listdir.
  destruct (os.resolve w p) as [l|]; [|by intros [= <-]].
  by destruct (os.node_at w l) as [[|d]|]; intros [= <-].
Qed.

(** A path can be listed when it names a directory, and only then. *)
Lemma listing_isdir (w : world) (p : string) :
  (os.path.isdir w p = true → ∃ names, listing w p = Ok names)
  ∧ (os.path.isdir w p = false → listing w p = Raise OSError).
Proof.
  unfold listing, os.listdir, os.path.isdir, os.stat.
  destruct (os.resolve w p) as [l|]; cbn; [|by split].
  destruct (os.node_at w l) as [[|d]|]; split; try done. eauto.
Qed.

Lemma same_tree_is_dir_at (w w' : world) (l : loc) :
  same_tree w w' → os.is_dir_at w' l = os.is_dir_at w l.
Proof.
  intros (Hf & _). unfold os.is_dir_at, os.node_at. by rewrite Hf.
Qed.

Lemma same_tree_listing (w w' : world) (p : string) :
  same_tree w w' → listing w' p = listing w p.
Proof.
  intros Hs. unfold listing, os.listdir.
  rewrite (resolve_ext w w') by
    (first [apply Hs | intros l; by apply same_tree_is_dir_at]).
  destruct Hs as (Hf & _).
  destruct (os.resolve w p) as [l|]; [|done].
  unfold os.node_at, os.children. rewrite Hf.
  by destruct l; [|destruct (files w !! _) as [[|d]|]].
Qed.

Lemma same_tree_isdir (w w' : world) (p : string) :
  same_tree w w' → os.path.isdir w' p = os.path.isdir w p.
Proof.
  intros Hs. unfold os.path.isdir, os.stat.
  rewrite (resolve_ext w w') by
    (first [apply Hs | intros l; by apply same_tree_is_dir_at]).
  destruct Hs as (Hf & _).
  destruct (os.resolve w p) as [l|]; [|done]. cbn.
  unfold os.node_at. by rewrite Hf.
Qed.

Lemma same_tree_validation (K : constants) (w w' : world) (directory name : string) :
  same_tree w w' → validation K w' directory name = validation K w directory name.
Proof. intros Hs. unfold validation. by rewrite !(same_tree_listing w w'). Qed.

(** [is_valid_template] only looks, and what it returns is what the rules
    give on the two listings. *)
Lemma is_valid_template_eq (K : constants) (name : string) (w : world)
    (m : TemplateManager) :
  is_valid_template K name (w, m)
  = ((w, m), validation K w (_template_directory m) name).
Proof.
  unfold is_valid_template, validation.
  rewrite bind_run. unfold gets at 1. cbn [snd].
  rewrite bind_run. unfold io at 1. rewrite listdir_eq.
  destruct (listing w _) as [entries|x]; [|reflexivity].
  destruct (negb (bool_decide ("config.ini" ∈ entries))); [reflexivity |].
  rewrite bind_run. unfold try_except. rewrite bind_run. unfold io.
  rewrite listdir_eq.
  destruct (listing w _) as [tdir|x] eqn:Hl.
  - munfold. by destruct (html_found tdir).
  - apply listing_raises in Hl as ->. reflexivity.
Qed.

Lemma html_found_spec (tdir : list string) :
  html_found tdir = true ↔ ∃ f, f ∈ tdir ∧ PyStr.endswith f ".html" = true.
Proof.
  induction tdir as [|f tdir IH]; simpl.
  - split; [done |]. intros (f & Hf & _). by apply not_elem_of_nil in Hf.
  - destruct (PyStr.endswith f ".html") eqn:Hf.
    + split; [|done]. intros _. exists f. split; [left | done].
    + rewrite IH. split.
      * intros (g & Hg & Hend). exists g. split; [by right | done].
      * intros (g & [-> | Hg]%elem_of_cons & Hend); [congruence |]. eauto.
  Qed.

(** C7, as the code has it.  [is_valid_template] has no effect on the world
    or the manager, so calling it again gives the same result.  When the
    directory [directory/name] cannot be listed it raises [OSError].  When
    it can, the three rules are tried in order and the first that fails
    decides: no entry [config.ini]; then a page directory that cannot be
    listed; then no entry of the page directory that ends in [.html]; and
    when all pass the result is [(True, name)]. *)
Theorem is_valid_template_rules (K : constants) (name : string) (w : world)
    (m : TemplateManager) :
  let dir_path := posixpath.join (_template_directory m) [name] in
  let html_path := posixpath.join dir_path [SCENARIO_HTML_DIR K] in
  ∃ r, is_valid_template K name (w, m) = ((w, m), r)
    ∧ (os.path.isdir w dir_path = false → r = Raise OSError)
    ∧ ∀ entries, os.listdir dir_path w = (w, Ok entries) →
        ("config.ini" ∉ entries →
           r = Ok (false, "Configuration file not found in: "))
        ∧ ("config.ini" ∈ entries →
             (os.path.isdir w html_path = false →
                r = Ok (false, "No " ++ SCENARIO_HTML_DIR K ++ " directory found in: "))
             ∧ ∀ tdir, os.listdir html_path w = (w, Ok tdir) →
                 ((∀ f, f ∈ tdir → PyStr.endswith f ".html" = false) →
                    r = Ok (false, "No HTML files found in: "))
                 ∧ ((∃ f, f ∈ tdir ∧ PyStr.endswith f ".html" = true) →
                      r = Ok (true, name))).
Proof.
  intros dir_path html_path. eexists. split; [apply is_valid_template_eq |].
  unfold validation. fold dir_path. fold html_path. split.
  - intros Hdir. by rewrite (proj2 (listing_isdir w dir_path) Hdir).
  - intros entries. rewrite listdir_eq. intros [= ->]. split.
    + intros Hno. by rewrite bool_decide_eq_false_2.
    + intros Hyes. rewrite bool_decide_eq_true_2 by done. cbn [negb]. split.
      * intros Hdir. by rewrite (proj2 (listing_isdir w html_path) Hdir).
      * intros tdir. rewrite listdir_eq. intros [= ->]. split.
        -- intros Hnone. destruct (html_found tdir) eqn:Hf; [|done].
           apply html_found_spec in Hf as (f & Hf & Hend).
           rewrite Hnone in Hend; done.
        -- intros Hsome. apply html_found_spec in Hsome. by rewrite Hsome.
Qed.

(** ** Discovering the templates *)

Lemma for_acc_invariant {S A B} (body : B → A → M S B) (I : S → Prop) (P : B → Prop)
    (l : list A) (acc : B) (s s' : S) (r : result B) :
  (∀ x b s s' r, x ∈ l → I s → P b → body b x s = (s', r) →
     I s' ∧ ∀ b', r = Ok b' → P b') →
  I s → P acc → for_acc l acc body s = (s', r) →
  I s' ∧ ∀ b', r = Ok b' → P b'.
Proof.
  revert acc s. induction l as [|x l IH]; intros acc s Hbody Hs Hacc; simpl.
  - intros [= <- <-]. split; [done |]. by intros b' [= <-].
  - rewrite bind_run. destruct (body acc x s) as [s1 [b1|e]] eqn:Hx.
    + destruct (Hbody x acc s s1 (Ok b1)) as [Hs1 Hb1]; [left | done..|].
      apply IH; [|done | by apply Hb1].
      intros y b s2 s3 r2 Hy. apply Hbody. by right.
    + intros [= <- <-].
      destruct (Hbody x acc s s1 (Raise e)) as [Hs1 _]; [left | done..|].
      split; [done |]. discriminate.
Qed.

Lemma same_tree_refl (w : world) : same_tree w w.
Proof. by repeat split. Qed.

Lemma find_user_templates_unfold (K : constants) (w : world) (m : TemplateManager) :
  find_user_templates K (w, m) =
  match listing w (_template_directory m) with
  | Ok names => for_acc names [] (examine K (_template_directory m)) (w, m)
  | Raise x => ((w, m), Raise x)
  end.
Proof.
  unfold find_user_templates. rewrite bind_run. unfold gets at 1. cbn [snd].
  rewrite bind_run. unfold io at 1. rewrite listdir_eq.
  by destruct (listing w _).
Qed.

Lemma validation_true_name (K : constants) (w : world)
    (directory name output : string) :
  validation K w directory name = Ok (true, output) → output = name.
Proof.
  unfold validation.
  destruct (listing w _); [|done].
  destruct (negb _); [done |].
  destruct (listing w _); [|done].
  destruct (html_found _); by intros [= <-].
Qed.

(** A round of [find_user_templates] prints at most, and adds a name only
    for a directory that is not known and passes the rules. *)
Lemma examine_invariant (K : constants) (w : world) (m : TemplateManager)
    (names : list string) (name : string) (found : list string)
    (s s' : world * TemplateManager) (r : result (list string)) :
  listing w (_template_directory m) = Ok names →
  name ∈ names →
  s.2 = m ∧ same_tree w s.1 →
  (∀ n, n ∈ found → templates m !! n = None ∧ discovered K w m n) →
  examine K (_template_directory m) found name s = (s', r) →
  (s'.2 = m ∧ same_tree w s'.1)
  ∧ ∀ found', r = Ok found' →
      ∀ n, n ∈ found' → templates m !! n = None ∧ discovered K w m n.
Proof.
  destruct s as [w1 m1]. intros Hnames Hname [Hm Hs] Hfound. cbn in Hm, Hs.
  subst m1. unfold examine. rewrite bind_run. unfold gets at 1. cbn [fst snd].
  destruct (os.path.isdir w1 _) eqn:Hdir; cbn [andb].
  2: { munfold. intros [= <- <-]. split; [done |]. by intros ? [= <-]. }
  case_bool_decide as Hknown; cbn [negb].
  { munfold. intros [= <- <-]. split; [done |]. by intros ? [= <-]. }
  rewrite bind_run, is_valid_template_eq.
  rewrite (same_tree_validation K w w1) by done.
  destruct (validation K w (_template_directory m) name) as [[[] output]|x] eqn:Hv.
  - munfold. intros [= <- <-]. split; [done |]. intros ? [= <-] n.
    intros [Hn | ->%list_elem_of_singleton]%elem_of_app; [by apply Hfound |].
    split.
    + destruct (templates m !! name) eqn:Ht; [|done]. exfalso. apply Hknown. eauto.
    + split; [eauto |]. split; [by rewrite <- (same_tree_isdir w w1) |].
      by rewrite (validation_true_name _ _ _ _ _ Hv) in Hv.
  - munfold. cbn. intros [= <- <-]. split.
    + split; [done |]. destruct Hs as (? & ? & ? & ?). by repeat split.
    + by intros ? [= <-].
  - intros [= <- <-]. split; [done |]. discriminate.
Qed.

(** What [find_user_templates] finds: directories of the template directory
    that are not keys of [templates] and pass the rules. *)
Lemma find_user_templates_found (K : constants) (w w1 : world)
    (m m1 : TemplateManager) (r : result (list string)) :
  find_user_templates K (w, m) = ((w1, m1), r) →
  m1 = m ∧ same_tree w w1
  ∧ ∀ found, r = Ok found →
      ∀ n, n ∈ found → templates m !! n = None ∧ discovered K w m n.
Proof.
  rewrite find_user_templates_unfold.
  destruct (listing w (_template_directory m)) as [names|x] eqn:Hnames.
  - intros Hrun.
    apply (for_acc_invariant (examine K (_template_directory m))
             (λ s, s.2 = m ∧ same_tree w s.1)
             (λ found, ∀ n, n ∈ found → templates m !! n = None ∧ discovered K w m n))
      in Hrun as [[Hm Hs] Hfound]; [done | | |].
    + intros x b s s' r0 Hx Hs Hb Hx'. by eapply examine_invariant.
    + split; [done | apply same_tree_refl].
    + intros n Hn. by apply not_elem_of_nil in Hn.
  - intros [= <- <- <-]. split; [done |]. split; [apply same_tree_refl | done].
Qed.

Lemma add_user_templates_unfold (K : constants) (s : world * TemplateManager) :
  add_user_templates K s =
  match find_user_templates K s with
  | (s1, Ok found) => for_ found (adopt K) s1
  | (s1, Raise x) => (s1, Raise x)
  end.
Proof. reflexivity. Qed.

(** A round of [add_user_templates] adds the template it has constructed
    under its name, or raises what the constructor raises and adds nothing. *)
Lemma adopt_run (K : constants) (name : string) (w : world) (m : TemplateManager) :
  adopt K name (w, m) =
  match (PhishingTemplate_init K name w).2 with
  | Ok t => ((w, set_templates <[name := t]> m), Ok tt)
  | Raise x => ((w, m), Raise x)
  end.
Proof.
  unfold adopt. rewrite bind_run. unfold io.
  pose proof (PhishingTemplate_init_world K name w) as Hw.
  destruct (PhishingTemplate_init K name w) as [w' [t|x]]; cbn in Hw; by subst w'.
Qed.

(** C8.  Discovery leaves what is known as it is.  After
    [add_user_templates], whether it returned or raised, every key that was in
    [templates] still maps to the template it mapped to.  What
    [find_user_templates] finds are directories that are not keys of
    [templates] and pass the rules, so no template is constructed for a known
    key; and every entry that is new was constructed for a found name. *)
Theorem discovery_keeps_known (K : constants) (w w1 : world)
    (m m1 : TemplateManager) (r : result unit) :
  add_user_templates K (w, m) = ((w1, m1), r) →
  (∀ foo t, templates m !! foo = Some t → templates m1 !! foo = Some t)
  ∧ (∀ s found, find_user_templates K (w, m) = (s, Ok found) →
       ∀ n, n ∈ found → templates m !! n = None ∧ discovered K w m n)
  ∧ (∀ name t, templates m1 !! name = Some t →
       templates m !! name = Some t
       ∨ (templates m !! name = None ∧ discovered K w m name
          ∧ PhishingTemplate_init K name w1 = (w1, Ok t))).
Proof.
  rewrite add_user_templates_unfold.
  destruct (find_user_templates K (w, m)) as [[w2 m2] rf] eqn:Hfind.
  destruct (find_user_templates_found _ _ _ _ _ _ Hfind) as (-> & Hs & Hfound).
  intros Hrun.
  assert ((∀ foo t, templates m !! foo = Some t → templates m1 !! foo = Some t)
          ∧ (∀ name t, templates m1 !! name = Some t →
               templates m !! name = Some t
               ∨ (templates m !! name = None ∧ discovered K w m name
                  ∧ PhishingTemplate_init K name w1 = (w1, Ok t)))) as [Hkept Hnew].
  { destruct rf as [found|x].
    2: { injection Hrun as <- <- <-. split; [done |]. intros name t Ht. by left. }
    apply (for_invariant (adopt K)
      (λ s, s.1 = w2
            ∧ (∀ foo t, templates m !! foo = Some t → templates s.2 !! foo = Some t)
            ∧ (∀ name t, templates s.2 !! name = Some t →
                 templates m !! name = Some t
                 ∨ (templates m !! name = None ∧ discovered K w m name
                    ∧ PhishingTemplate_init K name w2 = (w2, Ok t)))))
      in Hrun as (Hw & Hkept & Hnew).
    - cbn in Hw, Hkept, Hnew. by subst w1.
    - intros name [w3 m3] s' r0 Hname (Hw3 & Hkept & Hnew). cbn in Hw3, Hkept, Hnew.
      subst w3. rewrite adopt_run.
      destruct (Hfound found eq_refl name Hname) as [Hfresh Hdisc].
      destruct (PhishingTemplate_init K name w2) as [w4 [t|x]] eqn:Hinit; cbn.
      + pose proof (PhishingTemplate_init_world K name w2) as Hw4.
        rewrite Hinit in Hw4. cbn in Hw4. subst w4.
        intros [= <- <-]. cbn. split; [done |]. split.
        * intros foo t0 Hfoo. rewrite lookup_insert_ne; [by apply Hkept |].
          intros <-. congruence.
        * intros n t0. destruct (decide (name = n)) as [<- | Hne].
          -- rewrite lookup_insert_eq. intros [= <-]. by right.
          -- rewrite lookup_insert_ne by done. apply Hnew.
      + intros [= <- <-]. by repeat split.
    - cbn. split; [done |]. split; [done |]. intros name t Ht. by left. }
  split; [done |]. split; [|done].
  intros s found [= <- ->]. by apply Hfound.
Qed.

(** ** Path strings *)

Lemma rsplit_slash_tail (p : string) :
  no_slash (PyStr.rsplit_slash p).2 = true
  ∧ ((PyStr.rsplit_slash p).1 = "" → (PyStr.rsplit_slash p).2 = p).
Proof.
  induction p as [|c p [IHt IHh]]; [done |]. cbn [PyStr.rsplit_slash].
  destruct (PyStr.rsplit_slash p) as [h t]. cbn [fst snd] in *.
  destruct h as [|c' h]; [|done].
  rewrite IHh in IHt by done.
  destruct (Ascii.eqb c PyStr.slash) eqn:Hc; cbn [fst snd no_slash]; [done |].
  by rewrite Hc.
Qed.

Lemma basename_no_slash (p : string) : no_slash (posixpath.basename p) = true.
Proof. apply rsplit_slash_tail. Qed.

Lemma rsplit_no_slash (s : string) :
  no_slash s = true → PyStr.rsplit_slash s = ("", s).
Proof.
  induction s as [|c s IH]; [done |]. cbn [no_slash PyStr.rsplit_slash].
  intros [Hc Hs]%andb_true_iff. rewrite IH by done.
  by destruct (Ascii.eqb c PyStr.slash).
Qed.

(** Behind the last [/] of a path comes its base name. *)
Lemma rsplit_app_slash (q s : string) :
  no_slash s = true →
  PyStr.rsplit_slash (q ++ String PyStr.slash s) = (q ++ String PyStr.slash "", s).
Proof.
  intros Hs. induction q as [|c q IH].
  - change ("" ++ String PyStr.slash s) with (String PyStr.slash s).
    cbn [PyStr.rsplit_slash]. by rewrite rsplit_no_slash.
  - change (String c q ++ String PyStr.slash s)
      with (String c (q ++ String PyStr.slash s)).
    cbn [PyStr.rsplit_slash]. rewrite IH. by destruct q.
Qed.

Lemma substring_all (s : string) : String.substring 0 (String.length s) s = s.
Proof. induction s as [|c s IH]; [done |]. cbn. by rewrite IH. Qed.

Lemma substring_split (s : string) (k : nat) :
  (k ≤ String.length s)%nat →
  s = String.substring 0 k s ++ String.substring k (String.length s - k) s.
Proof.
  revert k. induction s as [|c s IH]; intros k Hk.
  - cbn in Hk. assert (k = 0)%nat as -> by lia. reflexivity.
  - destruct k as [|k].
    + rewrite Nat.sub_0_r, substring_all. reflexivity.
    + cbn in Hk. cbn [String.substring String.length].
      change (String c ?a ++ ?b) with (String c (a ++ b)).
      rewrite Nat.sub_succ. f_equal. apply IH. lia.
Qed.

Lemma endswith_suffix (s p : string) :
  PyStr.endswith s p = true → ∃ q, s = q ++ p.
Proof.
  unfold PyStr.endswith.
  destruct (String.length p <=? String.length s)%nat eqn:Hle; [|done].
  apply Nat.leb_le in Hle. intros Heq%String.eqb_eq.
  exists (String.substring 0 (String.length s - String.length p) s).
  pose proof (substring_split s (String.length s - String.length p)
                ltac:(lia)) as Hsplit.
  replace (String.length s - (String.length s - String.length p))%nat
    with (String.length p) in Hsplit by lia.
  by rewrite Heq in Hsplit.
Qed.

(** A path joined with a name that does not start with [/] is a prefix, empty
    or ending in [/], and the name. *)
Lemma join2_name (a b : string) :
  PyStr.startswith b "/" = false →
  posixpath.join2 a b = b ∨ ∃ q, posixpath.join2 a b = q ++ String PyStr.slash b.
Proof.
  intros Hb. unfold posixpath.join2. rewrite Hb.
  destruct (String.eqb a "") eqn:Ha.
  - apply String.eqb_eq in Ha as ->. by left.
  - cbn [orb]. destruct (PyStr.endswith a "/") eqn:He.
    + apply endswith_suffix in He as [q ->]. right. exists q.
      by rewrite string_app_assoc.
    + right. by exists a.
Qed.

(** What [static_path + filename] names: an entry [static<filename>] next to
    the directory [static], not the entry [filename] inside it. *)
Lemma static_path_concat (a fn : string) :
  no_slash fn = true →
  let static_path := posixpath.join2 a "static" in
  posixpath.basename (static_path ++ fn) = "static" ++ fn
  ∧ posixpath.dirname (static_path ++ fn) = posixpath.dirname static_path.
Proof.
  intros Hfn static_path.
  assert (no_slash ("static" ++ fn) = true) as Hs by done.
  assert (no_slash "static" = true) as Hs' by done.
  unfold posixpath.basename, posixpath.dirname.
  destruct (join2_name a "static" eq_refl) as [Hj | [q Hj]];
    unfold static_path; rewrite Hj.
  - by rewrite (rsplit_no_slash _ Hs), (rsplit_no_slash _ Hs').
  - rewrite string_app_assoc.
    change (String PyStr.slash "static" ++ fn)
      with (String PyStr.slash ("static" ++ fn)).
    by rewrite (rsplit_app_slash q _ Hs), (rsplit_app_slash q _ Hs').
Qed.

(** ** Staging a file *)

Lemma copyfile_ok (src dst : string) (w w' : world) :
  copyfile src dst w = (w', Ok tt) →
  ∃ d l, os.stat w src = Some (File d)
         ∧ os.resolve w dst = Some l
         ∧ os.node_at w l ≠ Some Dir
         ∧ w' = set_files <[l := File d]> w.
Proof.
  unfold copyfile. rewrite bind_run. unfold gets at 1.
  destruct (os.path.samefile w src dst); [discriminate |].
  rewrite bind_run. unfold gets.
  destruct (os.stat w src) as [[|d]|]; [discriminate | | discriminate].
  destruct (write_file_written w dst d) as [| l rest Hl Hn Hf | l Hl Hn Hf];
    [discriminate.. |].
  intros [= <-]. by exists d, l.
Qed.

Lemma use_file_noop (path : string) (w : world) (t : PhishingTemplate) :
  path = "" ∨ os.path.isfile w path = false →
  use_file path (w, t) = ((w, t), Ok None).
Proof.
  intros Hp. unfold use_file. rewrite bind_run. unfold gets at 1. cbn [fst].
  destruct Hp as [-> | ->]; [done |]. by rewrite andb_false_r.
Qed.

Lemma use_file_run (path : string) (w : world) (t : PhishingTemplate) :
  path ≠ "" → os.path.isfile w path = true →
  use_file path (w, t) =
  let destination := (static_path t ++ posixpath.basename path)%string in
  match copyfile path destination w with
  | (w', Ok _) =>
      ((w', set__extra_files (_extra_files t ++ [destination])%list t),
       Ok (Some (posixpath.basename path)))
  | (w', Raise x) => ((w', t), Raise x)
  end.
Proof.
  intros Hne Hf. unfold use_file. rewrite bind_run. unfold gets at 1. cbn [fst].
  rewrite Hf. apply String.eqb_neq in Hne. rewrite Hne. cbn [negb andb].
  rewrite bind_run. unfold gets at 1. cbn [snd].
  rewrite bind_run. unfold io.
  by destruct (copyfile path _ w) as [w' [[]|x]].
Qed.

(** C3, as the code has it.  For an empty path or one that names no regular
    file [use_file] copies nothing, stages nothing and returns [None].  When
    it returns a name, the name is the base name of the path, and the file was
    copied to the path [static_path + name], which is what is appended to the
    staged files.  [static_path] is joined from its components and ends in
    [static] without a separator, so the copy is the entry [static<name>] of
    the directory that holds [static], not the entry [<name>] of the
    directory [static]. *)
Theorem use_file_destination (K : constants) (name path : string)
    (w w' : world) (t t' : PhishingTemplate) (r : result (option string)) :
  static_path t = posixpath.join (PHISHING_PAGES_DIR K)
                    [PyStr.lower name; SCENARIO_HTML_DIR K; "static"] →
  use_file path (w, t) = ((w', t'), r) →
  (path = "" ∨ os.path.isfile w path = false → r = Ok None ∧ w' = w ∧ t' = t)
  ∧ (path ≠ "" → os.path.isfile w path = true →
       r = Ok (Some (posixpath.basename path)) ∨ ∃ x, r = Raise x)
  ∧ (∀ fn, r = Ok (Some fn) →
       fn = posixpath.basename path
       ∧ _extra_files t' = (_extra_files t ++ [(static_path t ++ fn)%string])%list
       ∧ os.stat w' (static_path t ++ fn) = os.stat w path
       ∧ posixpath.basename (static_path t ++ fn) = "static" ++ fn
       ∧ posixpath.dirname (static_path t ++ fn) = posixpath.dirname (static_path t)).
Proof.
  intros Hstatic Hrun. split; [|split].
  - intros Hp. rewrite use_file_noop in Hrun by done. by injection Hrun as <- <- <-.
  - intros Hne Hf. rewrite use_file_run in Hrun by done. cbn zeta in Hrun.
    destruct (copyfile path _ w) as [w1 [[]|x]]; injection Hrun as <- <- <-; eauto.
  - intros fn ->.
    destruct (decide (path = "")) as [-> | Hne].
    { by rewrite use_file_noop in Hrun by auto. }
    destruct (os.path.isfile w path) eqn:Hf.
    2: { by rewrite use_file_noop in Hrun by auto. }
    rewrite use_file_run in Hrun by done. cbn zeta in Hrun.
    destruct (copyfile path _ w) as [w1 [[]|x]] eqn:Hcopy; [|discriminate].
    injection Hrun as <- <- <-.
    apply copyfile_ok in Hcopy as (d & l & Hsrc & Hl & Hn & ->).
    split; [done |]. split; [done |]. split.
    + rewrite Hsrc. by apply stat_written.
    + rewrite Hstatic. apply static_path_concat, basename_no_slash.
Qed.

(** ** The code on the sample directory *)

Lemma run_method {X A} (x : (world * X) * result A) (r : result A) :
  x.2 = r → x = ((x.1.1, x.1.2), r).
Proof. destruct x as [[? ?] ?]. cbn. congruence. Qed.

(** Runs a method on a sample and reads off how it ends. *)
Ltac run_method :=
  lazymatch goal with
  | |- ?m = (_, ?r) => exact (run_method m r ltac:(vm_compute; reflexivity))
  end.

Section sample.
Import Sample.

Lemma sample_template : PhishingTemplate_init K "t" world0 = (world0, Ok template0).
Proof. reflexivity. Qed.

Lemma sample_template_plain :
  PhishingTemplate_init K "t" world_plain = (world_plain, Ok template_plain).
Proof. reflexivity. Qed.

Lemma sample_template_empty :
  PhishingTemplate_init K "t" world_empty = (world_empty, Ok template_empty).
Proof. reflexivity. Qed.

Lemma sample_staged :
  use_file "/tmp/logo.png" (world0, template0)
  = ((staged.1, staged.2), Ok (Some "logo.png")).
Proof. reflexivity. Qed.

Lemma sample_staged_twice :
  use_file "/tmp/note.txt" (staged.1, staged.2)
  = ((staged_twice.1, staged_twice.2), Ok (Some "note.txt")).
Proof. reflexivity. Qed.



Lemma merge_context_on_new_template_witness :
  PhishingTemplate_init K "t" world0 = (world0, Ok template0)
  ∧ context template0 !! "a" = Some (PyStr "1")
  ∧ merge_context incoming (world0, template0)
    = ((world0, template0), Raise AttributeError).
Proof.
  split; [reflexivity |]. split; [reflexivity |].
  apply (merge_context_on_new_template K "t" world0). reflexivity.
Defined.

Lemma use_file_destination_witness :
  use_file "/tmp/logo.png" (world0, template0)
  = ((staged.1, staged.2), Ok (Some "logo.png"))
  ∧ _extra_files staged.2 = [logo]
  ∧ os.stat staged.1 logo = Some (File (Blob "png"))
  ∧ os.stat staged.1 "/data/phishing-pages/t/html/static/logo.png" = None
  ∧ posixpath.basename logo = "staticlogo.png"
  ∧ posixpath.dirname logo = posixpath.dirname (static_path template0).
Proof.
  assert (use_file "/tmp/logo.png" (world0, template0)
          = ((staged.1, staged.2), Ok (Some "logo.png"))) as Hrun by run_method.
  destruct (use_file_destination K "t" "/tmp/logo.png" world0 staged.1
              template0 staged.2 _ eq_refl Hrun)
    as (_ & _ & Hdest).
  destruct (Hdest "logo.png" eq_refl) as (_ & Hstaged & Hcopy & Hbase & Hdir).
  split; [exact Hrun |]. split; [exact Hstaged |]. split; [exact Hcopy |].
  split; [reflexivity |]. split; [exact Hbase | exact Hdir].
Defined.




Lemma remove_extra_files_idempotent_witness :
  use_file "/tmp/logo.png" (world0, template0)
  = ((staged.1, staged.2), Ok (Some "logo.png"))
  ∧ os.path.isfile staged.1 logo = true
  ∧ remove_extra_files (staged.1, staged.2) = ((unstaged.1, unstaged.2), Ok tt)
  ∧ unstaged.2 = staged.2
  ∧ os.path.isfile unstaged.1 logo = false
  ∧ remove_extra_files (unstaged.1, unstaged.2) = ((unstaged.1, unstaged.2), Ok tt).
Proof.
  assert (remove_extra_files (staged.1, staged.2)
          = ((unstaged.1, unstaged.2), Ok tt)) as Hrun by run_method.
  destruct (remove_extra_files_idempotent _ _ _ _ _ Hrun)
    as (Hsame & _ & Hdone & _).
  destruct (Hdone eq_refl) as [Hgone Hagain].
  split; [reflexivity |]. split; [reflexivity |]. split; [exact Hrun |].
  split; [exact Hsame |]. split; [|exact Hagain].
  apply Hgone. change (_extra_files staged.2) with [logo]. left.
Defined.

(** C7: the claim fails.  For a name that is no directory of the template
    directory the validator raises [OSError] instead of returning
    [(False, reason)]; the manager's [__init__], which looks for the
    directory in the working directory and validates it in the template
    directory, runs into it. *)
Lemma is_valid_template_raises :
  os.path.isdir world0 "/data/phishing-pages/missing" = false
  ∧ is_valid_template K "missing" (world0, manager template0)
    = ((world0, manager template0), Raise OSError)
  ∧ os.path.isfile world_more "/data/phishing-pages/README" = true
  ∧ is_valid_template K "README" (world_more, manager template0)
    = ((world_more, manager template0), Raise OSError)
  ∧ (TemplateManager_init K world_more).2 = Raise OSError.
Proof. repeat split; reflexivity. Qed.

Lemma discovery_keeps_known_witness :
  add_user_templates K (world_more, manager staged.2)
  = ((rediscovered.1, rediscovered.2), Ok tt)
  ∧ _extra_files staged.2 = [logo]
  ∧ templates rediscovered.2 !! "t" = Some staged.2
  ∧ templates rediscovered.2 !! "u" = Some template_u
  ∧ templates rediscovered.2 !! "v" = None
  ∧ stdout rediscovered.1 = ["[(red)!(white)] No html/ directory found in: v"].
Proof.
  assert (add_user_templates K (world_more, manager staged.2)
          = ((rediscovered.1, rediscovered.2), Ok tt)) as Hrun by run_method.
  destruct (discovery_keeps_known _ _ _ _ _ _ Hrun) as (Hkept & _).
  split; [exact Hrun |]. split; [reflexivity |].
  split; [apply Hkept; reflexivity |]. repeat split; reflexivity.
Defined.



Lemma get_payload_path_without_key_witness :
  PhishingTemplate_init K "t" world_plain = (world_plain, Ok template_plain)
  ∧ info_plain !! "payloadpath" = None
  ∧ get_payload_path (world_plain, template_plain)
    = ((world_plain, template_plain), Ok PyFalse)
  ∧ PhishingTemplate_init K "t" world_empty = (world_empty, Ok template_empty)
  ∧ info_empty !! "payloadpath" = Some ""
  ∧ get_payload_path (world_empty, template_empty)
    = ((world_empty, template_empty), Ok (PyStr ""))
  ∧ has_payload (world_empty, template_empty)
    = ((world_empty, template_empty), Ok false).
Proof.
  destruct (get_payload_path_without_key K "t" world_plain world_plain
              template_plain descriptor_plain info_plain
              eq_refl eq_refl eq_refl) as (Hfalse & _).
  destruct (get_payload_path_without_key K "t" world_empty world_empty
              template_empty _ info_empty eq_refl eq_refl eq_refl)
    as (_ & Hempty & _).
  destruct (Hempty eq_refl) as [Hget Hhas].
  split; [reflexivity |]. split; [reflexivity |]. split; [exact (Hfalse eq_refl) |].
  split; [reflexivity |]. split; [reflexivity |]. split; [exact Hget | exact Hhas].
Defined.

End sample.

(** * Further properties of the module *)

(** ** Reading a section *)

(** X1.  [config_section_map] only reads: the world is as it was.  It raises
    nothing for a file that is missing or cannot be opened, nor for a missing
    section: the result is the empty dictionary.  For a section that is
    there, the dictionary has the options of the section and their values as
    strings, never [None].  The one exception it lets through is the
    parser's, for a file that is no descriptor. *)
Theorem config_section_map_reads (p s : string) (w : world) :
  ∃ r, config_section_map p s w = (w, r)
    ∧ (os.path.isfile w p = false → r = Ok ∅)
    ∧ (∀ b, os.stat w p = Some (File (Blob b)) → r = Raise ParsingError)
    ∧ (∀ c, os.stat w p = Some (File (Ini c)) →
         (c !! s = None → r = Ok ∅)
         ∧ (∀ opts, c !! s = Some opts →
              ∃ d : dict, r = Ok d
                ∧ (∀ k, d !! k = PyStr <$> opts !! k)
                ∧ (∀ k, d !! k ≠ Some PyNone))).
Proof.
  eexists. split; [apply config_section_map_eq |].
  unfold descriptor_at, os.path.isfile. split; [|split].
  - destruct (os.stat w p) as [[|[c|b]]|]; try done; by rewrite fmap_empty.
  - by intros b ->.
  - intros c ->. split.
    + intros Hs. unfold section_dict. rewrite Hs. cbn. by rewrite fmap_empty.
    + intros opts Hs. eexists. split; [done |].
      assert (∀ k, section_dict c s !! k = PyStr <$> opts !! k) as Hk.
      { intros k. by rewrite section_dict_lookup, Hs. }
      split; [done |]. intros k. rewrite Hk. by destruct (opts !! k).
Qed.

(** ** Constructing a template *)

(** X2.  [PhishingTemplate.__init__] only reads.  It returns a template
    exactly when the [info] section it finds has a [name] and a
    [description]; otherwise it raises [KeyError], also when the descriptor
    file or its [info] section is missing: no error says that the file is not
    there.  A file that is no descriptor makes it raise the parser's
    error. *)
Theorem PhishingTemplate_init_errors (K : constants) (name : string) (w : world) :
  let config_path := posixpath.join (PHISHING_PAGES_DIR K) [name; "config.ini"] in
  ∃ r, PhishingTemplate_init K name w = (w, r)
    ∧ (∀ x, descriptor_at w config_path = Raise x → r = Raise x)
    ∧ (∀ c, descriptor_at w config_path = Ok c →
         let info := default ∅ (c !! "info") in
         (is_Some (info !! "name") ∧ is_Some (info !! "description") →
            ∃ t, r = Ok t)
         ∧ (info !! "name" = None ∨ info !! "description" = None →
              r = Raise KeyError))
    ∧ (os.path.isfile w config_path = false → r = Raise KeyError).
Proof.
  intros config_path.
  pose proof (PhishingTemplate_init_world K name w) as Hw.
  destruct (PhishingTemplate_init K name w) as [w' r] eqn:Hrun.
  cbn in Hw. subst w'. exists r. split; [done |].
  revert Hrun. unfold PhishingTemplate_init. fold config_path.
  rewrite bind_run, config_section_map_eq.
  assert (∀ c, descriptor_at w config_path = Ok c →
    match section_dict c "info" !! "name", section_dict c "info" !! "description" with
    | Some _, Some _ => ∃ t, r = Ok t
    | _, _ => r = Raise KeyError
    end → 
    let info := default ∅ (c !! "info") in
    (is_Some (info !! "name") ∧ is_Some (info !! "description") → ∃ t, r = Ok t)
    ∧ (info !! "name" = None ∨ info !! "description" = None → r = Raise KeyError))
    as Hcases.
  { intros c _. rewrite !section_dict_lookup. intros Hr info. fold info in Hr.
    destruct (info !! "name") as [n|], (info !! "description") as [d|];
      cbn in Hr; (split; [intros [[? ?] [? ?]] | intros [? | ?]]); done. }
  destruct (descriptor_at w config_path) as [c|x] eqn:Hd.
  2: { intros [= <-]. split; [by intros ? [= <-] |]. split; [done |].
       unfold descriptor_at, os.path.isfile in *.
       by destruct (os.stat w config_path) as [[|[?|?]]|]. }
  intros Hrun.
  assert (match section_dict c "info" !! "name",
                section_dict c "info" !! "description" with
          | Some _, Some _ => ∃ t, r = Ok t
          | _, _ => r = Raise KeyError
          end) as Hr.
  { revert Hrun. unfold getitem, raise.
    unfold mbind, M_bind, mret, M_ret.
    destruct (section_dict c "info" !! "name") as [n|]; [|by intros [= <-]].
    destruct (section_dict c "info" !! "description") as [d|]; [|by intros [= <-]].
    case_bool_decide as Hp.
    - destruct Hp as [v Hv]. rewrite Hv, config_section_map_eq, Hd.
      intros [= <-]. eauto.
    - rewrite config_section_map_eq, Hd. intros [= <-]. eauto. }
  split; [done |]. split.
  - intros c' [= <-]. by apply Hcases.
  - intros Hfile. unfold descriptor_at, os.path.isfile in *.
    destruct (os.stat w config_path) as [[|[c0|?]]|]; try done;
      injection Hd as <-; by rewrite section_dict_lookup in Hr.
Qed.

(** ** What a payload swap leaves behind *)

(** The descriptor [update_config_file] builds has two sections, and its
    [context] section has one key. *)
Lemma rewritten_shape (fn : string) (c c' : ini) :
  rewritten fn c = Ok c' →
  ∃ info old,
    c !! "info" = Some info
    ∧ ConfigParser.get c "context" "update_path" = Ok old
    ∧ c' = {[ "info" := rewritten_info fn info;
              "context" := {[ "update_path" :=
                 posixpath.join (posixpath.dirname old) [fn] ]} ]}.
Proof.
  unfold rewritten. destruct (c !! "info") as [info|]; [|done].
  destruct (ConfigParser.get c "context" "update_path") as [old|x]; [|done].
  intros [= <-]. by exists info, old.
Qed.


Lemma isfile_insert_file (w : world) (l : loc) (d : data) (p : string) :
  os.node_at w l ≠ Some Dir →
  os.path.isfile w p = true →
  os.path.isfile (set_files <[l := File d]> w) p = true.
Proof.
  intros Hl. unfold os.path.isfile, os.stat.
  rewrite resolve_insert_file by done.
  destruct (os.resolve w p) as [k|]; [|done]. cbn.
  destruct k as [|x k]; [done |].
  rewrite node_at_set_files, node_at_files by done.
  destruct (decide (l = x :: k)) as [-> | Hne].
  - by rewrite lookup_insert_eq.
  - by rewrite lookup_insert_ne.
Qed.

(** X4.  A payload swap forgets the staged files without removing them:
    when [update_payload_path] returns, the list of staged files is empty, so
    [remove_extra_files] removes nothing, and every staged path that named a
    regular file still names one. *)
Theorem update_payload_path_forgets_staged (fn : string) (w w' : world)
    (t t' : PhishingTemplate) :
  update_payload_path fn (w, t) = ((w', t'), Ok tt) →
  _extra_files t' = []
  ∧ remove_extra_files (w', t') = ((w', t'), Ok tt)
  ∧ ∀ p, p ∈ _extra_files t → os.path.isfile w p = true →
         os.path.isfile w' p = true.
Proof.
  intros Hrun. pose proof Hrun as Hrun'.
  apply update_payload_path_ok in Hrun as (c & c' & l & Hd & Hc' & Hl & -> & Hd' & ->).
  split; [done |]. split; [done |].
  intros p _ Hp.
  rewrite update_payload_path_run, update_config_file_eq, Hd, Hc' in Hrun'.
  destruct (write_file_written w (_config_path t) (Ini c'))
    as [| k rest Hk Hn Hf | k Hk Hn Hf]; [discriminate.. |].
  rewrite Hl in Hk. injection Hk as <-. by apply isfile_insert_file.
Qed.

(** ** Merging *)

(** X5.  A payload swap is what makes [merge_context] usable: after
    [update_payload_path] has returned, [merge_context] returns, the
    template's [update_path] wins over an incoming one and every other key of
    the result is the incoming one. *)
Theorem merge_context_after_update (fn : string) (w w' : world)
    (t t' : PhishingTemplate) (incoming : dict) :
  update_payload_path fn (w, t) = ((w', t'), Ok tt) →
  ∃ (merged : dict) (up : string),
    merge_context incoming (w', t') = ((w', set__context merged t'), Ok merged)
    ∧ merged !! "update_path" = Some (PyStr up)
    ∧ (∀ k, k ≠ "update_path" → merged !! k = incoming !! k)
    ∧ ∃ c c', descriptor_at w' (_config_path t) = Ok c'
              ∧ descriptor_at w (_config_path t) = Ok c
              ∧ ConfigParser.get c' "context" "update_path" = Ok up.
Proof.
  intros Hrun.
  apply update_payload_path_ok in Hrun as (c & c' & l & Hd & Hc' & _ & _ & Hd' & ->).
  apply rewritten_shape in Hc' as (info & old & Hinfo & Hold & ->).
  set (up := posixpath.join (posixpath.dirname old) [fn]).
  assert (section_dict
            {[ "info" := rewritten_info fn info;
               "context" := {[ "update_path" := up ]} ]} "context"
          = {[ "update_path" := PyStr up ]}) as Hctx.
  { unfold section_dict. rewrite lookup_insert_ne by done.
    rewrite lookup_singleton_eq. cbn. by rewrite map_fmap_singleton. }
  exists ({[ "update_path" := PyStr up ]} ∪ incoming), up.
  split; [|split; [|split]].
  - apply merge_context_set. exact (f_equal Some Hctx).
  - apply lookup_union_Some_l, lookup_singleton_eq.
  - intros k Hk. apply lookup_union_r. by rewrite lookup_singleton_ne.
  - exists c. eexists. split; [exact Hd' |]. split; [done |].
    unfold ConfigParser.get. rewrite lookup_insert_ne by done.
    by rewrite !lookup_singleton_eq.
Qed.


(** ** Staging and unstaging *)

(** How [copyfile] ends. *)
Lemma copyfile_cases (src dst : string) (w : world) :
  (os.path.samefile w src dst = true ∧ copyfile src dst w = (w, Raise ShutilError))
  ∨ (os.path.samefile w src dst = false
     ∧ os.path.isfile w src = false ∧ copyfile src dst w = (w, Raise IOError))
  ∨ (os.path.samefile w src dst = false
     ∧ ∃ d, os.stat w src = Some (File d)
            ∧ copyfile src dst w = os.write_file dst d w).
Proof.
  assert (copyfile src dst w =
          if os.path.samefile w src dst then (w, Raise ShutilError)
          else match os.stat w src with
               | Some (File d) => os.write_file dst d w
               | _ => (w, Raise IOError)
               end) as ->.
  { unfold copyfile. rewrite bind_run. unfold gets at 1.
    destruct (os.path.samefile w src dst); [done |].
    rewrite bind_run. unfold gets.
    by destruct (os.stat w src) as [[|d]|]. }
  unfold os.path.isfile.
  destruct (os.path.samefile w src dst); [by left |]. right.
  destruct (os.stat w src) as [[|d]|]; [by left | | by left].
  right. split; [done |]. by exists d.
Qed.

(** X7.  When [use_file] raises, nothing is staged: the template is as it
    was.  The exception is [shutil]'s error for a source that is its own
    destination, or the [IOError] of the copy; and when the copy broke after
    it had opened the destination, what it left there is on no list of staged
    files. *)
Theorem use_file_failure (path : string) (w w' : world)
    (t t' : PhishingTemplate) (x : exn) :
  use_file path (w, t) = ((w', t'), Raise x) →
  t' = t
  ∧ (x = ShutilError ∨ x = IOError)
  ∧ (w' = w
     ∨ ∃ l rest,
         os.resolve w (static_path t ++ posixpath.basename path) = Some l
         ∧ wfault w !! l = Some (WriteBroken rest)
         ∧ w' = set_files <[l := File rest]> w).
Proof.
  destruct (decide (path = "")) as [-> | Hne].
  { by rewrite use_file_noop by auto. }
  destruct (os.path.isfile w path) eqn:Hf.
  2: { by rewrite use_file_noop by auto. }
  rewrite use_file_run by done. cbn zeta.
  destruct (copyfile_cases path (static_path t ++ posixpath.basename path) w)
    as [[_ ->] | [(_ & _ & ->) | (_ & d & _ & ->)]].
  - intros [= <- <- <-]. auto.
  - intros [= <- <- <-]. auto.
  - destruct (write_file_written w (static_path t ++ posixpath.basename path) d)
      as [| l rest Hl Hn Hfault | l Hl Hn Hfault].
    + intros [= <- <- <-]. auto.
    + intros [= <- <- <-]. split; [done |]. split; [auto |]. right.
      by exists l, rest.
    + discriminate.
Qed.

(** X8.  When [use_file] returns a name, the one thing that changed on disk
    is the destination, which holds what the source holds; the source is as
    it was; and of the template only the list of staged files changed. *)
Theorem use_file_writes_destination_only (path : string) (w w' : world)
    (t t' : PhishingTemplate) (fn : string) :
  use_file path (w, t) = ((w', t'), Ok (Some fn)) →
  ∃ l d,
    os.resolve w (static_path t ++ fn) = Some l
    ∧ os.stat w path = Some (File d)
    ∧ w' = set_files <[l := File d]> w
    ∧ os.stat w' path = Some (File d)
    ∧ t' = set__extra_files (_extra_files t ++ [(static_path t ++ fn)%string])%list t.
Proof.
  destruct (decide (path = "")) as [-> | Hne].
  { by rewrite use_file_noop by auto. }
  destruct (os.path.isfile w path) eqn:Hf.
  2: { by rewrite use_file_noop by auto. }
  rewrite use_file_run by done. cbn zeta.
  destruct (copyfile_cases path (static_path t ++ posixpath.basename path) w)
    as [[_ ->] | [(_ & _ & ->) | (Hsame & d & Hsrc & ->)]]; [done.. |].
  destruct (write_file_written w (static_path t ++ posixpath.basename path) d)
    as [| l rest Hl Hn Hfault | l Hl Hn Hfault]; [done.. |].
  intros [= <- <- <-]. exists l, d.
  split; [done |]. split; [done |]. split; [done |]. split; [|done].
  unfold os.stat in *. rewrite resolve_insert_file by done.
  unfold os.path.samefile in Hsame. rewrite Hl in Hsame.
  destruct (os.resolve w path) as [ls|]; [|done]. cbn in *.
  rewrite Hsrc in Hsame. rewrite bool_decide_eq_true_2 in Hsame by eauto.
  cbn in Hsame. apply bool_decide_eq_false in Hsame.
  apply node_at_file in Hsrc as [Hls Hsrc].
  rewrite node_at_set_files by done. by rewrite lookup_insert_ne.
Qed.

Lemma set_files_delete_insert (w : world) (l : loc) (n : node) :
  files w !! l = None →
  set_files (delete l) (set_files <[l := n]> w) = w.
Proof.
  intros Hl. destruct w as [f c lk wf out]. unfold set_files. cbn in *.
  by rewrite delete_insert_eq, delete_id.
Qed.

(** X9.  Staging a file and cleaning up is a round trip.  On a template
    with nothing staged, after [use_file] has returned a name,
    [remove_extra_files] either is refused the removal of the copy and raises
    [OSError], or returns having removed the copy and nothing else; when
    there was nothing at the destination before, the world is then as it was
    before [use_file]. *)
Theorem use_file_remove_roundtrip (path : string) (w w1 w2 : world)
    (t t1 t2 : PhishingTemplate) (fn : string) (r : result unit) :
  _extra_files t = [] →
  use_file path (w, t) = ((w1, t1), Ok (Some fn)) →
  remove_extra_files (w1, t1) = ((w2, t2), r) →
  ∃ l, os.resolve w (static_path t ++ fn) = Some l
    ∧ ((l ∈ locked w ∧ r = Raise OSError ∧ w2 = w1)
       ∨ ((l ∉ locked w) ∧ r = Ok tt
          ∧ files w2 = delete l (files w)
          ∧ (files w !! l = None → w2 = w))).
Proof.
  intros Hnone Huse.
  destruct (decide (path = "")) as [-> | Hne].
  { by rewrite use_file_noop in Huse by auto. }
  destruct (os.path.isfile w path) eqn:Hf.
  2: { by rewrite use_file_noop in Huse by auto. }
  rewrite use_file_run in Huse by done. cbn zeta in Huse.
  destruct (copyfile_cases path (static_path t ++ posixpath.basename path) w)
    as [[_ Hc] | [(_ & _ & Hc) | (Hsame & d & Hsrc & Hc)]];
    rewrite Hc in Huse; [done.. |].
  destruct (write_file_written w (static_path t ++ posixpath.basename path) d)
    as [| l rest Hl Hn Hfault | l Hl Hn Hfault]; [done.. |].
  injection Huse as <- <- <-. rewrite Hnone.
  rewrite remove_extra_files_unfold. cbn [_extra_files set__extra_files app for_].
  rewrite bind_run. intros Hrem. exists l. split; [done |].
  set (dest := static_path t ++ posixpath.basename path) in *.
  set (w1 := set_files <[l := File d]> w) in *.
  set (t1 := set__extra_files [dest] t) in *.
  assert (os.resolve w1 dest = Some l) as Hl1.
  { unfold w1. by rewrite resolve_insert_file. }
  assert (l ≠ []) as Hnil.
  { intros ->. by apply Hn. }
  assert (os.node_at w1 l = Some (File d)) as Hn1.
  { unfold w1. rewrite node_at_set_files by done. apply lookup_insert_eq. }
  destruct (remove_if_file_cases dest w1 t1)
    as [[Hfile _] | [(k & d' & Hk & _ & Hlock & Hr) | (k & d' & Hk & _ & Hlock & Hr)]].
  - unfold os.path.isfile, os.stat in Hfile. rewrite Hl1 in Hfile. cbn in Hfile.
    by rewrite Hn1 in Hfile.
  - rewrite Hr in Hrem. rewrite Hl1 in Hk. injection Hk as <-.
    injection Hrem as <- <- <-. by left.
  - rewrite Hr in Hrem. rewrite Hl1 in Hk. injection Hk as <-.
    injection Hrem as <- <- <-. right.
    split; [done |]. split; [done |]. split.
    + cbn. apply delete_insert_eq.
    + intros Hfresh. by apply set_files_delete_insert.
Qed.

(** ** What discovery finds *)

Lemma printed_nil (w : world) : printed [] w = w.
Proof. destruct w. unfold printed. cbn. by rewrite app_nil_r. Qed.

Lemma printed_app (l1 l2 : list string) (w : world) :
  printed l2 (printed l1 w) = printed (l1 ++ l2) w.
Proof. unfold printed. cbn. by rewrite app_assoc. Qed.

Lemma printed_same_tree (lines : list string) (w : world) :
  same_tree w (printed lines w).
Proof. by repeat split. Qed.

(** A directory that can be listed gets a verdict from the rules. *)
Lemma validation_of_directory (K : constants) (w : world) (directory name : string) :
  os.path.isdir w (posixpath.join directory [name]) = true →
  ∃ b output, validation K w directory name = Ok (b, output).
Proof.
  intros Hdir. unfold validation.
  destruct (proj1 (listing_isdir w _) Hdir) as [entries ->].
  destruct (negb _); [eauto |].
  destruct (listing w _) as [tdir|x]; [|eauto].
  destruct (html_found tdir); eauto.
Qed.

(** A round of [find_user_templates], by what it decides. *)
Lemma examine_run (K : constants) (w : world) (m : TemplateManager)
    (lines : list string) (found : list string) (name : string) :
  examine K (_template_directory m) found name (printed lines w, m)
  = ((printed (lines ++ option_list (diagnostic K w m name)) w, m),
     Ok (if accepted K w m name then (found ++ [name])%list else found)).
Proof.
  unfold examine, accepted, diagnostic.
  rewrite bind_run. unfold gets at 1. cbn [fst snd].
  rewrite (same_tree_isdir w (printed lines w)) by apply printed_same_tree.
  destruct (os.path.isdir w _) eqn:Hdir; cbn [andb].
  2: { cbn. by rewrite app_nil_r. }
  destruct (bool_decide (is_Some (templates m !! name))); cbn [negb andb].
  { cbn. by rewrite app_nil_r. }
  rewrite bind_run, is_valid_template_eq.
  rewrite (same_tree_validation K w (printed lines w)) by apply printed_same_tree.
  destruct (validation_of_directory K w _ _ Hdir) as (b & output & ->).
  destruct b; cbn.
  - by rewrite app_nil_r.
  - unfold printed. cbn. rewrite bind_run. unfold io, print, modify. cbn.
    by rewrite <- app_assoc.
Qed.

Lemma examine_loop (K : constants) (w : world) (m : TemplateManager)
    (names : list string) (lines found : list string) :
  for_acc names found (examine K (_template_directory m)) (printed lines w, m)
  = ((printed (lines ++ omap (diagnostic K w m) names) w, m),
     Ok (found ++ List.filter (accepted K w m) names)%list).
Proof.
  revert lines found. induction names as [|name names IH]; intros lines found.
  - cbn. by rewrite !app_nil_r.
  - cbn [for_acc]. rewrite bind_run, examine_run, IH. cbn [List.filter].
    change (omap (diagnostic K w m) (name :: names))
      with (match diagnostic K w m name with
            | Some line => line :: omap (diagnostic K w m) names
            | None => omap (diagnostic K w m) names
            end).
    destruct (diagnostic K w m name) as [line|], (accepted K w m name); cbn;
      rewrite <- ?app_assoc; reflexivity.
Qed.


(** ** Adding what was found *)

Lemma same_tree_stat (w w' : world) (p : string) :
  same_tree w w' → os.stat w' p = os.stat w p.
Proof.
  intros Hs. unfold os.stat.
  rewrite (resolve_ext w w') by
    (first [apply Hs | intros l; by apply same_tree_is_dir_at]).
  destruct Hs as (Hf & _).
  destruct (os.resolve w p) as [l|]; [|done]. cbn.
  unfold os.node_at. by rewrite Hf.
Qed.

(** The constructor looks at the descriptor only. *)
Lemma same_tree_init (K : constants) (name : string) (w w' : world) :
  same_tree w w' →
  (PhishingTemplate_init K name w').2 = (PhishingTemplate_init K name w).2.
Proof.
  intros Hs. unfold PhishingTemplate_init.
  rewrite !bind_run, !config_section_map_eq.
  assert (∀ p, descriptor_at w' p = descriptor_at w p) as Hd.
  { intros p. unfold descriptor_at. by rewrite (same_tree_stat w w'). }
  rewrite Hd. destruct (descriptor_at w _) as [c|x] eqn:Hc; [|done].
  unfold getitem, raise, mbind, M_bind, mret, M_ret.
  destruct (section_dict c "info" !! "name"); [|done].
  destruct (section_dict c "info" !! "description"); [|done].
  case_bool_decide as Hp.
  - destruct Hp as [v ->]. by rewrite !config_section_map_eq, Hd, Hc.
  - by rewrite !config_section_map_eq, Hd, Hc.
Qed.

Lemma init_result (K : constants) (name : string) (w : world) :
  PhishingTemplate_init K name w = (w, (PhishingTemplate_init K name w).2).
Proof.
  pose proof (PhishingTemplate_init_world K name w) as Hw.
  destruct (PhishingTemplate_init K name w) as [w' r]. cbn in *. by subst.
Qed.

(** The constructor raises for want of a key, or what the parser raises. *)
Lemma init_raises (K : constants) (name : string) (w : world) (x : exn) :
  (PhishingTemplate_init K name w).2 = Raise x → x = KeyError ∨ x = ParsingError.
Proof.
  unfold PhishingTemplate_init. rewrite bind_run, config_section_map_eq.
  destruct (descriptor_at w _) as [c|x'] eqn:Hd.
  - unfold getitem, raise, mbind, M_bind, mret, M_ret.
    destruct (section_dict c "info" !! "name"); [|intros [= <-]; auto].
    destruct (section_dict c "info" !! "description"); [|intros [= <-]; auto].
    case_bool_decide as Hp.
    + destruct Hp as [v ->]. by rewrite config_section_map_eq, Hd.
    + by rewrite config_section_map_eq, Hd.
  - intros [= <-]. right. unfold descriptor_at in Hd.
    destruct (os.stat w _) as [[|[?|?]]|]; congruence.
Qed.

Lemma elem_of_filter_accepted (K : constants) (w : world) (m : TemplateManager)
    (names : list string) (n : string) :
  n ∈ List.filter (accepted K w m) names ↔ n ∈ names ∧ accepted K w m n = true.
Proof. rewrite !list_elem_of_In. apply filter_In. Qed.

Lemma accepted_eligible (K : constants) (w : world) (m : TemplateManager)
    (names : list string) (n : string) :
  n ∈ names →
  accepted K w m n = true ↔
  eligible K w (_template_directory m) names n ∧ templates m !! n = None.
Proof.
  intros Hn. unfold accepted, eligible. rewrite !andb_true_iff, negb_true_iff.
  rewrite bool_decide_eq_false, <- eq_None_not_Some. split.
  - intros [[Hdir Hnew] Hv]. split; [|done]. split; [done |]. split; [done |].
    destruct (validation K w _ n) as [[[] o]|] eqn:Hval; try done.
    by rewrite (validation_true_name _ _ _ _ _ Hval).
  - intros [(_ & Hdir & ->) Hnew]. done.
Qed.

(** What the loop of [add_user_templates] keeps, started in [(w1, m)] on the
    names [found]. *)
Local Abbreviation adopt_invariant K w w1 m found :=
  (λ s : world * TemplateManager,
     s.1 = w1
     ∧ _template_directory s.2 = _template_directory m
     ∧ (∀ n, n ∉ found → templates s.2 !! n = templates m !! n)
     ∧ (∀ n t, n ∈ found → templates s.2 !! n = Some t →
               templates m !! n = Some t
               ∨ PhishingTemplate_init K n w = (w, Ok t))).

Lemma adopt_keeps (K : constants) (w w1 : world) (m : TemplateManager)
    (found : list string) (n : string) (s s' : world * TemplateManager)
    (r : result unit) :
  same_tree w w1 → n ∈ found →
  adopt_invariant K w w1 m found s → adopt K n s = (s', r) →
  adopt_invariant K w w1 m found s'.
Proof.
  destruct s as [w2 m2]. intros Hs Hn (Hw & Hdir & Hout & Hin). cbn in Hw. subst w2.
  rewrite adopt_run, (same_tree_init K n w w1) by done.
  destruct (PhishingTemplate_init K n w).2 as [t|x] eqn:Hinit.
  - intros [= <- <-]. cbn. split; [done |]. split; [done |]. split.
    + intros k Hk. rewrite lookup_insert_ne; [by apply Hout |]. by intros <-.
    + intros k t' Hk. destruct (decide (n = k)) as [<- | Hne].
      * rewrite lookup_insert_eq. intros [= <-]. right.
        by rewrite init_result, Hinit.
      * rewrite lookup_insert_ne by done. by apply Hin.
  - by intros [= <- <-].
Qed.

(** How the loop of [add_user_templates] ends. *)
Lemma adopt_loop (K : constants) (w w1 : world) (m m1 : TemplateManager)
    (found : list string) (s1 : world) (r : result unit) :
  same_tree w w1 →
  for_ found (adopt K) (w1, m) = ((s1, m1), r) →
  s1 = w1
  ∧ _template_directory m1 = _template_directory m
  ∧ (∀ n, n ∉ found → templates m1 !! n = templates m !! n)
  ∧ match r with
    | Ok _ =>
        ∀ n, n ∈ found →
          ∃ t, PhishingTemplate_init K n w = (w, Ok t) ∧ templates m1 !! n = Some t
    | Raise x =>
        (x = KeyError ∨ x = ParsingError)
        ∧ ∃ n, n ∈ found ∧ (PhishingTemplate_init K n w).2 = Raise x
    end.
Proof.
  intros Hs Hrun.
  assert (adopt_invariant K w w1 m found (w1, m)) as HI0.
  { split; [done |]. split; [done |]. split; [done |]. intros n t _ Ht. by left. }
  assert (∀ x s s' r, x ∈ found → adopt_invariant K w w1 m found s →
                      adopt K x s = (s', r) → adopt_invariant K w w1 m found s')
    as Hinv.
  { intros x s s' r0 Hx. by apply adopt_keeps. }
  pose proof (for_invariant (adopt K) _ _ _ _ _ Hinv HI0 Hrun) as (Hw & Hdir & Hout & _).
  cbn in Hw, Hdir, Hout. split; [done |]. split; [done |]. split; [done |].
  destruct r as [[]|x].
  - intros n Hn.
    apply (for_all_rounds (adopt K) (adopt_invariant K w w1 m found)
             (λ n s, ∃ t, PhishingTemplate_init K n w = (w, Ok t)
                          ∧ templates s.2 !! n = Some t)) with (x := n) in Hrun;
      try done.
    + intros k [w2 m2] s' Hk (Hw2 & _). cbn in Hw2. subst w2.
      rewrite adopt_run, (same_tree_init K k w w1) by done.
      destruct (PhishingTemplate_init K k w).2 as [t|x] eqn:Hinit; [|done].
      intros [= <-]. exists t. cbn. rewrite init_result, Hinit.
      by rewrite lookup_insert_eq.
    + intros k k' [w2 m2] s' r0 Hk' (Hw2 & _) (t & Hinit & Ht). cbn in Hw2, Ht.
      subst w2. rewrite adopt_run, (same_tree_init K k' w w1) by done.
      destruct (PhishingTemplate_init K k' w).2 as [t'|x] eqn:Hinit'.
      * intros [= <-]. exists t. split; [done |]. cbn.
        destruct (decide (k' = k)) as [-> | Hne].
        -- rewrite lookup_insert_eq. rewrite init_result, Hinit' in Hinit.
           by injection Hinit as ->.
        -- by rewrite lookup_insert_ne.
      * intros [= <-]. by exists t.
  - apply (for_raised (adopt K) (adopt_invariant K w w1 m found)) in Hrun
      as (n & [w2 m2] & Hn & (Hw2 & _) & Hrun); [| |done].
    + cbn in Hw2. subst w2.
      rewrite adopt_run, (same_tree_init K n w w1) in Hrun by done.
      destruct (PhishingTemplate_init K n w).2 as [t|x'] eqn:Hinit; [done |].
      injection Hrun as _ _ ->. split; [|by exists n].
      by eapply init_raises.
    + intros k s s' Hk. by apply adopt_keeps.
Qed.


(** ** The manager as constructed *)

Lemma TemplateManager_init_unfold (K : constants) (w : world) :
  TemplateManager_init K w =
  new {| _template_directory := PHISHING_PAGES_DIR K; templates := ∅ |}
    (page_dirs ← io (os.listdir (PHISHING_PAGES_DIR K));
     for_ page_dirs (enroll K);;
     add_user_templates K) w.
Proof. reflexivity. Qed.

(** The rules give a verdict for directories only. *)
Lemma validation_ok_isdir (K : constants) (w : world) (directory name : string)
    (v : bool * string) :
  validation K w directory name = Ok v →
  os.path.isdir w (posixpath.join directory [name]) = true.
Proof.
  unfold validation. intros Hv.
  destruct (os.path.isdir w _) eqn:Hdir; [done |].
  by rewrite (proj2 (listing_isdir w _) Hdir) in Hv.
Qed.

(** A round of the loop of [__init__], by what it decides. *)
Lemma enroll_run (K : constants) (page : string) (w : world) (m : TemplateManager) :
  enroll K page (w, m) =
  if os.path.isdir w page then
    match validation K w (_template_directory m) page with
    | Raise x => ((w, m), Raise x)
    | Ok (true, _) => adopt K page (w, m)
    | Ok (false, _) => ((w, m), Ok tt)
    end
  else ((w, m), Ok tt).
Proof.
  unfold enroll. rewrite bind_run. unfold gets at 1. cbn [fst].
  destruct (os.path.isdir w page); [|done].
  rewrite !bind_run, is_valid_template_eq.
  by destruct (validation K w _ page) as [[[] o]|x].
Qed.

Local Abbreviation enroll_invariant K w names :=
  (λ s : world * TemplateManager,
     s.1 = w
     ∧ _template_directory s.2 = PHISHING_PAGES_DIR K
     ∧ ∀ n t, templates s.2 !! n = Some t →
              eligible K w (PHISHING_PAGES_DIR K) names n
              ∧ PhishingTemplate_init K n w = (w, Ok t)).

Lemma enroll_keeps (K : constants) (w : world) (names : list string)
    (page : string) (s s' : world * TemplateManager) (r : result unit) :
  page ∈ names →
  enroll_invariant K w names s → enroll K page s = (s', r) →
  enroll_invariant K w names s'.
Proof.
  destruct s as [w2 m2]. intros Hpage (Hw & Hdir & Hin). cbn in Hw, Hdir, Hin.
  subst w2. rewrite enroll_run, Hdir.
  destruct (os.path.isdir w page); [|by intros [= <- <-]].
  destruct (validation K w (PHISHING_PAGES_DIR K) page) as [[[] o]|x] eqn:Hv;
    [|by intros [= <- <-]..].
  rewrite adopt_run.
  destruct (PhishingTemplate_init K page w).2 as [t|x] eqn:Hinit;
    [|by intros [= <- <-]].
  intros [= <- <-]. cbn. split; [done |]. split; [done |].
  intros n t'. destruct (decide (page = n)) as [<- | Hne].
  - rewrite lookup_insert_eq. intros [= <-]. split.
    + split; [done |]. split; [by eapply validation_ok_isdir |].
      by rewrite <- (validation_true_name _ _ _ _ _ Hv) at 2.
    + by rewrite init_result, Hinit.
  - rewrite lookup_insert_ne by done. apply Hin.
Qed.

(** X12.  The manager [TemplateManager()] returns.  Its templates are
    exactly the entries of the template directory that are directories and
    pass the three rules, each mapped to the template constructed from its
    descriptor; nothing on disk has changed.  (When it does not return, a
    listing or a constructor raised.) *)
Theorem TemplateManager_init_templates (K : constants) (w w1 : world)
    (m : TemplateManager) :
  TemplateManager_init K w = (w1, Ok m) →
  ∃ names,
    listing w (PHISHING_PAGES_DIR K) = Ok names
    ∧ same_tree w w1
    ∧ _template_directory m = PHISHING_PAGES_DIR K
    ∧ (∀ n, is_Some (templates m !! n) ↔ eligible K w (PHISHING_PAGES_DIR K) names n)
    ∧ (∀ n t, templates m !! n = Some t →
              PhishingTemplate_init K n w = (w, Ok t)).
Proof.
  rewrite TemplateManager_init_unfold. unfold new.
  rewrite bind_run. unfold io at 1. rewrite listdir_eq.
  destruct (listing w (PHISHING_PAGES_DIR K)) as [names|x] eqn:Hnames; [|done].
  rewrite bind_run.
  destruct (for_ names (enroll K) _) as [[w2 m2] [[]|x]] eqn:Hloop; [|done].
  apply (for_invariant (enroll K) (enroll_invariant K w names)) in Hloop
    as (Hw2 & Hdir2 & Hin2).
  2: { intros page s s' r Hpage. by apply enroll_keeps. }
  2: { split; [done |]. split; [done |]. intros n t Ht.
       cbn in Ht. by rewrite lookup_empty in Ht. }
  cbn in Hw2, Hdir2, Hin2. subst w2.
  destruct (add_user_templates K (w, m2)) as [[w3 m3] [[]|x]] eqn:Hadd; [|done].
  intros [= <- <-]. exists names. split; [done |].
  revert Hadd. rewrite add_user_templates_unfold.
  pose proof (find_user_templates_unfold K w m2) as Hfind.
  rewrite Hdir2, Hnames in Hfind. rewrite <- (printed_nil w) in Hfind at 2.
  rewrite <- Hdir2, examine_loop in Hfind. rewrite Hfind. cbn [app].
  intros Hadd.
  apply (adopt_loop K w) in Hadd as (-> & Hdir3 & Hout & Hfound);
    [|apply printed_same_tree].
  split; [apply printed_same_tree |]. split; [congruence |].
  assert (∀ n, n ∈ names →
    (n ∈ List.filter (accepted K w m2) names
     ↔ eligible K w (PHISHING_PAGES_DIR K) names n ∧ templates m2 !! n = None))
    as Hacc.
  { intros n Hn. rewrite elem_of_filter_accepted, (accepted_eligible K w m2 names n Hn).
    rewrite Hdir2. split; [by intros [_ ?] | by intros ?; split]. }
  split.
  - intros n. split.
    + intros Hsome.
      destruct (decide (n ∈ List.filter (accepted K w m2) names)) as [Hf | Hf].
      * pose proof Hf as Hf'. apply elem_of_filter_accepted in Hf' as [Hn _].
        by apply (Hacc n Hn) in Hf as [? _].
      * rewrite (Hout n Hf) in Hsome. destruct Hsome as [t Ht].
        by apply Hin2 in Ht as [? _].
    + intros Hel. pose proof Hel as (Hn & _).
      destruct (templates m2 !! n) as [t|] eqn:Ht.
      * assert (n ∉ List.filter (accepted K w m2) names) as Hf.
        { intros Hf. apply (Hacc n Hn) in Hf as [_ Hnone]. congruence. }
        rewrite (Hout n Hf), Ht. eauto.
      * assert (n ∈ List.filter (accepted K w m2) names) as Hf.
        { by apply (Hacc n Hn). }
        destruct (Hfound n Hf) as (t' & _ & ->). eauto.
  - intros n t Ht.
    destruct (decide (n ∈ List.filter (accepted K w m2) names)) as [Hf | Hf].
    + destruct (Hfound n Hf) as (t' & Hinit & Ht'). congruence.
    + rewrite (Hout n Hf) in Ht. by apply Hin2 in Ht as [_ ?].
Qed.

(** ** Paths that end in a separator *)











(** ** Swapping the payload again *)



(** ** Cleaning up again *)

Lemma clean_nothing (m : TemplateManager) (w : world)
    (l : list (string * PhishingTemplate)) :
  (∀ name t, (name, t) ∈ l → templates m !! name = Some t) →
  (∀ name t p, templates m !! name = Some t → p ∈ _extra_files t →
               os.path.isfile w p = false) →
  for_ l clean_template (w, m) = ((w, m), Ok tt).
Proof.
  intros Hl Hnone. induction l as [|[name t] l IH]; [done |].
  cbn [for_]. rewrite bind_run.
  assert (templates m !! name = Some t) as Ht by (apply Hl; left).
  destruct (clean_template_run name t w m Ht) as (w1 & r & Hrem & ->).
  rewrite remove_extra_files_unfold, remove_nothing in Hrem by eauto.
  injection Hrem as <- <-. apply IH. intros n t' Hin. apply Hl. by right.
Qed.

Local Abbreviation cleaning_invariant w m :=
  (λ s : world * TemplateManager, s.2 = m ∧ cleaned (all_staged m) w s.1).

(** When [on_exit] returns, no staged path of any template names a file. *)
Lemma on_exit_gone (w w1 : world) (m m1 : TemplateManager) :
  on_exit (w, m) = ((w1, m1), Ok tt) →
  m1 = m
  ∧ ∀ name t p, templates m !! name = Some t → p ∈ _extra_files t →
                os.path.isfile w1 p = false.
Proof.
  rewrite on_exit_unfold. intros Hrun.
  assert (cleaning_invariant w m (w, m)) as HI0
    by (split; [done | apply cleaned_refl]).
  pose proof (for_invariant clean_template (cleaning_invariant w m) _ _ _ _
                (clean_template_invariant w m) HI0 Hrun) as [Hm _].
  cbn in Hm. split; [done |]. intros name t p Ht Hp.
  apply (for_all_rounds clean_template (cleaning_invariant w m)
           (λ kv s, ∀ p, p ∈ _extra_files kv.2 → os.path.isfile s.1 p = false))
    with (x := (name, t)) (p := p) in Hrun; try done.
  - apply clean_template_invariant.
  - intros [n t'] [w2 m2] [w3 m3] Hkv [Hm2 _] Hx q Hq. cbn [fst snd] in *.
    subst m2. apply elem_of_map_to_list in Hkv.
    destruct (clean_template_run n t' w2 m Hkv) as (w4 & r' & Hrem & Hx').
    rewrite Hx' in Hx. injection Hx as <- <- ->.
    by eapply remove_extra_files_gone.
  - intros kv [n t'] [w2 m2] [w3 m3] r0 Hkv [Hm2 _] Hq Hx q Hq'.
    cbn [fst snd] in *. subst m2. apply elem_of_map_to_list in Hkv.
    destruct (clean_template_run n t' w2 m Hkv) as (w4 & r' & Hrem & Hx').
    rewrite Hx' in Hx. injection Hx as <- <- ->.
    apply remove_extra_files_cleaned in Hrem as [_ Hc'].
    eapply cleaned_isfile; [exact Hc' | by apply Hq].
  - by apply elem_of_map_to_list.
Qed.

(** X14.  [on_exit] can be run again: when it has returned, a second call
    returns as well and changes nothing, since every staged file is gone and
    a missing file is passed over.  On a manager whose templates staged
    nothing that is still a file, the first call already changes nothing. *)
Theorem on_exit_again (w w1 : world) (m m1 : TemplateManager) :
  on_exit (w, m) = ((w1, m1), Ok tt) →
  on_exit (w1, m1) = ((w1, m1), Ok tt)
  ∧ ((∀ name t p, templates m !! name = Some t → p ∈ _extra_files t →
                  os.path.isfile w p = false) → w1 = w).
Proof.
  intros Hrun. pose proof Hrun as Hrun'.
  apply on_exit_gone in Hrun as [-> Hgone]. split.
  - rewrite on_exit_unfold. apply clean_nothing; [|done].
    intros name t Hin. by apply elem_of_map_to_list.
  - intros Hnone. rewrite on_exit_unfold, clean_nothing in Hrun'; [| |done].
    + by injection Hrun' as <-.
    + intros name t Hin. by apply elem_of_map_to_list.
Qed.

(** ** Describing a template *)

(** X15.  The description of a template that [__init__] constructed is the
    [name] of its descriptor, a line break and a tab, its [description], and
    a line break: both are strings, since a template is constructed only from
    a descriptor that has them. *)
Theorem PhishingTemplate_str_constructed (K : constants) (name : string)
    (w w' : world) (t : PhishingTemplate) :
  PhishingTemplate_init K name w = (w', Ok t) →
  ∃ (c : ini) (info : gmap string string) (n d : string),
    descriptor_at w (posixpath.join (PHISHING_PAGES_DIR K) [name; "config.ini"]) = Ok c
    ∧ c !! "info" = Some info
    ∧ info !! "name" = Some n ∧ info !! "description" = Some d
    ∧ PhishingTemplate_str (w', t)
      = ((w', t), Ok (n ++ newline ++ tab ++ d ++ newline)).
Proof.
  intros Hinit.
  apply PhishingTemplate_init_inv in Hinit as (-> & c & Hd & Hn & Hdesc & _).
  rewrite section_dict_lookup in Hn, Hdesc.
  destruct (c !! "info") as [info|] eqn:Hinfo.
  2: { cbn in Hn. by rewrite lookup_empty in Hn. }
  change (default ∅ (Some info)) with info in Hn, Hdesc.
  destruct (info !! "name") as [n|] eqn:Hn'; [|done].
  destruct (info !! "description") as [d|] eqn:Hd'; [|done].
  injection Hn as Hn. injection Hdesc as Hdesc.
  exists c, info, n, d. repeat split; try done.
  unfold PhishingTemplate_str, gets. cbn [snd]. by rewrite <- Hn, <- Hdesc.
Qed.

(** ** The further properties on the sample directory *)

Section sample_runs.
Import Sample SampleRuns.

Lemma PhishingTemplate_str_constructed_witness :
  PhishingTemplate_init K "t" world0 = (world0, Ok template0)
  ∧ ∃ (c : ini) (info : gmap string string) (n d : string),
      descriptor_at world0
        (posixpath.join (PHISHING_PAGES_DIR K) ["t"; "config.ini"]) = Ok c
      ∧ c !! "info" = Some info
      ∧ info !! "name" = Some n ∧ info !! "description" = Some d
      ∧ PhishingTemplate_str (world0, template0)
        = ((world0, template0), Ok (n ++ newline ++ tab ++ d ++ newline)).
Proof.
  split; [reflexivity |].
  apply (PhishingTemplate_str_constructed K "t" world0). reflexivity.
Defined.


Lemma update_payload_path_forgets_staged_witness :
  _extra_files staged.2 = [logo]
  ∧ os.path.isfile staged.1 logo = true
  ∧ update_payload_path "new.exe" (staged.1, staged.2)
    = ((swapped_staged.1, swapped_staged.2), Ok tt)
  ∧ _extra_files swapped_staged.2 = []
  ∧ remove_extra_files (swapped_staged.1, swapped_staged.2)
    = ((swapped_staged.1, swapped_staged.2), Ok tt)
  ∧ os.path.isfile swapped_staged.1 logo = true.
Proof.
  assert (update_payload_path "new.exe" (staged.1, staged.2)
          = ((swapped_staged.1, swapped_staged.2), Ok tt)) as Hrun by run_method.
  destruct (update_payload_path_forgets_staged _ _ _ _ _ Hrun)
    as (Hnone & Hrem & Hstill).
  split; [reflexivity |]. split; [reflexivity |]. split; [exact Hrun |].
  split; [exact Hnone |]. split; [exact Hrem |].
  apply Hstill; [|reflexivity]. change (_extra_files staged.2) with [logo]. left.
Defined.

Lemma merge_context_after_update_witness :
  update_payload_path "new.exe" (world0, template0)
  = ((updated.1, updated.2), Ok tt)
  ∧ ∃ (merged : dict) (up : string),
      merge_context incoming (updated.1, updated.2)
      = ((updated.1, set__context merged updated.2), Ok merged)
      ∧ merged !! "update_path" = Some (PyStr up)
      ∧ merged !! "a" = Some (PyStr "2").
Proof.
  assert (update_payload_path "new.exe" (world0, template0)
          = ((updated.1, updated.2), Ok tt)) as Hrun by run_method.
  destruct (merge_context_after_update _ _ _ _ _ incoming Hrun)
    as (merged & up & Hmerge & Hup & Hother & _).
  split; [exact Hrun |]. exists merged, up.
  split; [exact Hmerge |]. split; [exact Hup |].
  rewrite Hother by done. reflexivity.
Defined.


Lemma use_file_failure_witness :
  use_file "/tmp/logo.png" (world_short, template0)
  = ((cut_short.1, cut_short.2), Raise IOError)
  ∧ cut_short.2 = template0
  ∧ os.stat world_short logo = None
  ∧ os.stat cut_short.1 logo = Some (File (Blob "png")).
Proof.
  assert (use_file "/tmp/logo.png" (world_short, template0)
          = ((cut_short.1, cut_short.2), Raise IOError)) as Hrun by run_method.
  destruct (use_file_failure _ _ _ _ _ _ Hrun) as (Hsame & _).
  split; [exact Hrun |]. split; [exact Hsame |]. split; reflexivity.
Defined.

Lemma use_file_writes_destination_only_witness :
  use_file "/tmp/logo.png" (world0, template0)
  = ((staged.1, staged.2), Ok (Some "logo.png"))
  ∧ ∃ l d,
      os.resolve world0 (static_path template0 ++ "logo.png") = Some l
      ∧ os.stat world0 "/tmp/logo.png" = Some (File d)
      ∧ staged.1 = set_files <[l := File d]> world0
      ∧ os.stat staged.1 "/tmp/logo.png" = Some (File d)
      ∧ staged.2
        = set__extra_files
            (_extra_files template0 ++ [(static_path template0 ++ "logo.png")%string])%list
            template0.
Proof.
  assert (use_file "/tmp/logo.png" (world0, template0)
          = ((staged.1, staged.2), Ok (Some "logo.png"))) as Hrun by run_method.
  split; [exact Hrun |].
  exact (use_file_writes_destination_only _ _ _ _ _ _ Hrun).
Defined.

Lemma use_file_remove_roundtrip_witness :
  _extra_files template0 = []
  ∧ use_file "/tmp/logo.png" (world0, template0)
    = ((staged.1, staged.2), Ok (Some "logo.png"))
  ∧ remove_extra_files (staged.1, staged.2) = ((unstaged.1, unstaged.2), Ok tt)
  ∧ unstaged.1 = world0.
Proof.
  assert (use_file "/tmp/logo.png" (world0, template0)
          = ((staged.1, staged.2), Ok (Some "logo.png"))) as Huse by run_method.
  assert (remove_extra_files (staged.1, staged.2)
          = ((unstaged.1, unstaged.2), Ok tt)) as Hrem by run_method.
  destruct (use_file_remove_roundtrip "/tmp/logo.png" world0 staged.1 unstaged.1
              template0 staged.2 unstaged.2 "logo.png" (Ok tt) eq_refl Huse Hrem)
    as (l & Hl & [(_ & Hr & _) | (_ & _ & _ & Hback)]); [discriminate |].
  split; [reflexivity |]. split; [exact Huse |]. split; [exact Hrem |].
  apply Hback.
  assert (os.resolve world0 (static_path template0 ++ "logo.png") = Some logo_loc)
    as Hl' by reflexivity.
  rewrite Hl' in Hl. injection Hl as <-. reflexivity.
Defined.


Lemma TemplateManager_init_templates_witness :
  TemplateManager_init K world0 = (world0, Ok (manager template0))
  ∧ ∃ names,
      listing world0 (PHISHING_PAGES_DIR K) = Ok names
      ∧ same_tree world0 world0
      ∧ _template_directory (manager template0) = PHISHING_PAGES_DIR K
      ∧ (∀ n, is_Some (templates (manager template0) !! n)
              ↔ eligible K world0 (PHISHING_PAGES_DIR K) names n)
      ∧ (∀ n t, templates (manager template0) !! n = Some t →
                PhishingTemplate_init K n world0 = (world0, Ok t)).
Proof.
  assert (TemplateManager_init K world0 = (world0, Ok (manager template0)))
    as Hrun by reflexivity.
  split; [exact Hrun |]. exact (TemplateManager_init_templates _ _ _ _ Hrun).
Defined.


Lemma on_exit_again_witness :
  on_exit (staged_twice.1, manager staged_twice.2) = ((exited.1, exited.2), Ok tt)
  ∧ on_exit (exited.1, exited.2) = ((exited.1, exited.2), Ok tt).
Proof.
  assert (on_exit (staged_twice.1, manager staged_twice.2)
          = ((exited.1, exited.2), Ok tt)) as Hrun by run_method.
  split; [exact Hrun |]. exact (proj1 (on_exit_again _ _ _ _ Hrun)).
Defined.

End sample_runs.
